(** * Anomaly Detection API (backend/main.py): a shallow embedding

    The service is a FastAPI application that loads delimited power
    consumption data with pandas, standardises seven feature columns with a
    scikit-learn scaler, scores the rows with an isolation forest and
    reshapes the flagged rows into a JSON response.

    What the repository itself programs is embedded here as executable
    functions: the loading pipeline, the feature check, the scoring of a
    frame, the shaping of the response, the exception handling of the four
    handlers and the two global variables [model] and [scaler] with the
    files that mirror them.  What it imports (float arithmetic, the parsers
    of numbers and timestamps, the scaler, the forest, the sampler) is the
    interface [Library]; every theorem holds for every implementation of
    it, and module [Demo] gives one on which the handlers run. *)

From stdpp Require Import gmap strings list sorting pretty.
From Stdlib Require Import ZArith QArith Ascii.

Local Open Scope string_scope.
Local Open Scope Z_scope.
Local Set Warnings "-clear-no-such-hyp".

(** ** Exceptions *)

(** [HTTPException] is FastAPI's; every other Python exception is kept by
    its class name and its message. *)
Inductive exn : Type :=
  | HTTPException (status_code : Z) (detail : string)
  | Exception (class message : string).

Inductive result (A : Type) : Type :=
  | Ok (a : A)
  | Raise (e : exn).
Arguments Ok {A} a.
Arguments Raise {A} e.

Global Instance result_ret : MRet result := λ A a, Ok a.
Global Instance result_bind : MBind result := λ A B k r,
  match r with
  | Ok a => k a
  | Raise e => Raise e
  end.

Global Instance result_fmap : FMap result := λ A B f r,
  match r with
  | Ok a => Ok (f a)
  | Raise e => Raise e
  end.

Definition is_Ok {A} (r : result A) : bool :=
  match r with Ok _ => true | Raise _ => false end.

Definition from_Ok {A} (d : A) (r : result A) : A :=
  match r with Ok a => a | Raise _ => d end.

(** [str(e)]: Starlette prints an [HTTPException] as "status: detail". *)
Definition str (e : exn) : string :=
  match e with
  | HTTPException c d => pretty c +:+ ": " +:+ d
  | Exception _ m => m
  end.

(** [try: body  except Exception as e: raise HTTPException(500, prefix + str(e))].
    [HTTPException] is a subclass of [Exception], so this clause also
    catches the 4xx errors raised inside [body]. *)
Definition except_Exception {A} (prefix : string) (body : result A) : result A :=
  match body with
  | Ok a => Ok a
  | Raise e => Raise (HTTPException 500 (prefix +:+ str e))
  end.

(** [try: body  except HTTPException: raise  except Exception as e: ...] *)
Definition except_HTTPException_reraise {A} (prefix : string) (body : result A)
  : result A :=
  match body with
  | Ok a => Ok a
  | Raise (HTTPException c d) => Raise (HTTPException c d)
  | Raise e => Raise (HTTPException 500 (prefix +:+ str e))
  end.

(** ** The imported libraries *)

(** A [pd.Timestamp] as [pd.to_datetime] gives it for one string: its
    number of seconds since the epoch, and whether it is tz-aware, which it
    is when the string carries a UTC offset (a final Z, +01:00, ...). *)
Record Timestamp : Type := {
  seconds : Z;
  tz_aware : bool;
}.

Class Library : Type := {
  (** Python floats and the three operations the handlers apply to them *)
  float : Type;
  float_of_int : Z → float;
  int_truediv : Z → Z → float;
  float_mul : float → float → float;
  float_ltb : float → float → bool;
  (** [pd.to_numeric] on one string; [None] is what [errors='coerce']
      turns into NaN *)
  to_numeric1 : string → option float;
  (** [pd.to_datetime] on one string with a format, and without one;
      [None] is NaT.  The one format the service passes has no offset
      directive, so that what it parses is tz-naive and is kept as its
      number of seconds since the epoch. *)
  strptime : string → string → option Z;
  parse_datetime : string → option Timestamp;
  isoformat : Z → string;
  (** scikit-learn *)
  Scaler : Type;
  Model : Type;
  StandardScaler_fit : list (list float) → result Scaler;
  transform : Scaler → list (list float) → result (list (list float));
  IsolationForest_fit :
    Z → Q → Z → list (list float) → result Model;
  predict : Model → list (list float) → result (list Z);
  decision_function : Model → list (list float) → result (list float);
  (** [DataFrame.sample(n, random_state)]: the positions drawn from a
      population of the given size *)
  sample_positions : Z → nat → nat → list nat;
}.

(** ** Data frames *)

Section Frames.
Context `{Library}.

(** A cell of a frame: missing (NaN and NaT alike), a string of an object
    column, a float, an integer (the anomaly flag) or a timestamp. *)
Inductive cell : Type :=
  | NaN
  | Str (s : string)
  | Num (x : float)
  | Int (z : Z)
  | Stamp (t : Z).

Definition isna (c : cell) : bool :=
  match c with NaN => true | _ => false end.

(** A row is a dictionary from column labels to cells, and carries its
    index label, which filters keep.  [datetimes] lists the columns of
    dtype datetime64[ns], which a column keeps with rows or without; the
    dtype of every other column is read off its cells. *)
Record DataFrame : Type := {
  columns : list string;
  rows : list (nat * gmap string cell);
  datetimes : list string;
}.

Definition len (df : DataFrame) : Z := Z.of_nat (length (rows df)).

Definition at_col (c : string) (r : gmap string cell) : cell :=
  default NaN (r !! c).

Definition has_column (c : string) (df : DataFrame) : bool :=
  bool_decide (c ∈ columns df).

Definition series (c : string) (df : DataFrame) : list cell :=
  map (λ ir, at_col c ir.2) (rows df).

(** [df[c] = f(row)] for every row: a new column is appended, an existing
    one is replaced in place. *)
Definition assign (c : string) (f : gmap string cell → cell) (df : DataFrame)
  : DataFrame :=
  {| columns := if has_column c df then columns df else columns df ++ [c];
     rows := map (λ ir, (ir.1, <[c := f ir.2]> ir.2)) (rows df);
     datetimes := filter (λ d, d ≠ c) (datetimes df) |}.

(** [df[c] = pd.to_datetime(...)]: the same, and the column has the dtype
    datetime64[ns]. *)
Definition assign_datetime (c : string) (f : gmap string cell → cell)
    (df : DataFrame) : DataFrame :=
  {| columns := columns (assign c f df);
     rows := rows (assign c f df);
     datetimes := c :: datetimes df |}.

(** [df[c] = values]; pandas raises when the lengths differ. *)
Definition assign_values (c : string) (values : list cell) (df : DataFrame)
  : result DataFrame :=
  if bool_decide (length values = length (rows df)) then
    Ok {| columns := if has_column c df then columns df else columns df ++ [c];
          rows := zip_with (λ ir v, (ir.1, <[c := v]> ir.2)) (rows df) values;
          datetimes := filter (λ d, d ≠ c) (datetimes df) |}
  else Raise (Exception "ValueError"
                "Length of values does not match length of index").

(** [df.drop(columns=cs, inplace=True)] *)
Definition drop (cs : list string) (df : DataFrame) : DataFrame :=
  {| columns := filter (λ c, c ∉ cs) (columns df);
     rows := map (λ ir, (ir.1, foldr delete ir.2 cs)) (rows df);
     datetimes := filter (λ c, c ∉ cs) (datetimes df) |}.

(** [df[mask]] with the mask computed row by row *)
Definition select (keep : gmap string cell → bool) (df : DataFrame) : DataFrame :=
  {| columns := columns df;
     rows := filter (λ ir, keep ir.2 = true) (rows df);
     datetimes := datetimes df |}.

Definition complete (cols : list string) (r : gmap string cell) : bool :=
  forallb (λ c, negb (isna (at_col c r))) cols.

(** [df.dropna(inplace=True)]: a row stays when no column is missing in it. *)
Definition dropna (df : DataFrame) : DataFrame :=
  select (complete (columns df)) df.

(** [df.head(n)] *)
Definition head (n : nat) (df : DataFrame) : DataFrame :=
  {| columns := columns df; rows := take n (rows df);
     datetimes := datetimes df |}.

End Frames.

(** ** Reading delimited text ([pd.read_csv]) *)

Section Loader.
Context `{Library}.

(** The strings pandas reads as missing when [na_values] adds nothing. *)
Definition default_na_values : list string :=
  [""; "#N/A"; "#N/A N/A"; "#NA"; "-1.#IND"; "-1.#QNAN"; "-NaN"; "-nan";
   "1.#IND"; "1.#QNAN"; "<NA>"; "N/A"; "NA"; "NULL"; "NaN"; "None"; "n/a";
   "nan"; "null"].

Fixpoint split_on (sep : ascii) (s : string) : list string :=
  match s with
  | EmptyString => [EmptyString]
  | String c s' =>
      if Ascii.eqb c sep then EmptyString :: split_on sep s'
      else match split_on sep s' with
           | [] => [String c EmptyString]
           | field :: fields => String c field :: fields
           end
  end.

(** A line ends with a line feed, possibly after a carriage return. *)
Fixpoint strip_cr (l : string) : string :=
  match l with
  | EmptyString => EmptyString
  | String c EmptyString =>
      if Ascii.eqb c "013"%char then EmptyString else String c EmptyString
  | String c l' => String c (strip_cr l')
  end.

(** Blank lines are skipped.  Quoted fields are not modelled: a field is
    what stands between two separators. *)
Definition lines (contents : string) : list string :=
  filter (λ l, l ≠ "") (strip_cr <$> split_on "010"%char contents).

(** The records of a file: the fields of each line after the header. *)
Definition records (sep : ascii) (contents : string) : list (list string) :=
  map (split_on sep) (tail (lines contents)).

Definition header (sep : ascii) (contents : string) : list string :=
  match lines contents with
  | [] => []
  | h :: _ => split_on sep h
  end.

Definition read_cell (na : list string) (s : string) : cell :=
  if bool_decide (s ∈ na) then NaN else Str s.

(** A record shorter than the header leaves its last columns missing.
    pandas renames a label that occurs twice in the header; here the first
    column with a label is the column of that label. *)
Definition read_row (hdr na : list string) (fields : list string)
  : gmap string cell :=
  list_to_map (zip hdr (map (read_cell na) fields)).

(** [pd.to_numeric(errors='coerce')] on one cell *)
Definition to_numeric_cell (c : cell) : cell :=
  match c with
  | NaN => NaN
  | Str s => match to_numeric1 s with Some x => Num x | None => NaN end
  | Num x => Num x
  | Int z => Int z
  | Stamp t => Int t
  end.

Definition to_numeric (col : string) (df : DataFrame) : DataFrame :=
  assign col (λ r, to_numeric_cell (at_col col r)) df.

(** A column read from text gets a numeric dtype when the frame has rows
    and each of its cells is missing or parses as a number; otherwise it
    stays an object column of strings. *)
Definition parses (c : cell) : bool :=
  match c with
  | Str s => bool_decide (is_Some (to_numeric1 s))
  | Stamp _ => false
  | _ => true
  end.

Definition numeric_dtype (col : string) (df : DataFrame) : bool :=
  negb (bool_decide (rows df = [])) && forallb parses (series col df).

Definition infer_dtype (df : DataFrame) (col : string) : DataFrame :=
  if numeric_dtype col df then to_numeric col df else df.

(** The index labels of the rows are the positions of the records.  A
    record with more fields than the header is a tokenizing error. *)
Definition read_csv (contents : string) (sep : ascii) (na_values : list string)
  : result DataFrame :=
  let hdr := header sep contents in
  let recs := records sep contents in
  if bool_decide (lines contents = []) then
    Raise (Exception "EmptyDataError" "No columns to parse from file")
  else if existsb (λ r, (length hdr <? length r)%nat) recs then
    Raise (Exception "ParserError" "Error tokenizing data")
  else
    let na := (default_na_values ++ na_values)%list in
    Ok (foldl infer_dtype
          {| columns := hdr;
             rows := imap (λ i r, (i, read_row hdr na r)) recs;
             datetimes := [] |}
          hdr).

(** ** The loading pipeline

    The same three steps are written out in [load_default_dataset],
    [predict_anomalies] and [train_model]. *)

Definition DATETIME_FORMAT : string := "%d/%m/%Y %H:%M:%S".

(** [df['Date'] + ' ' + df['Time']], row by row: a missing part gives a
    missing sum. *)
Definition date_time (r : gmap string cell) : cell :=
  match at_col "Date" r, at_col "Time" r with
  | Str d, Str t => Str (d +:+ " " +:+ t)
  | _, _ => NaN
  end.

(** [pd.to_datetime(s, format=fmt, errors='coerce')] on one cell *)
Definition to_datetime (fmt : string) (c : cell) : cell :=
  match c with
  | Str s => match strptime fmt s with Some t => Stamp t | None => NaN end
  | _ => NaN
  end.

(** Handle date and time.  [+ ' '] on a column of numeric dtype raises;
    on an object column it works cell by cell. *)
Definition handle_date_time (df : DataFrame) : result DataFrame :=
  if has_column "Date" df && has_column "Time" df then
    if numeric_dtype "Date" df || numeric_dtype "Time" df then
      Raise (Exception "TypeError" "unsupported operand type(s) for +")
    else
      Ok (drop ["Date"; "Time"]
            (assign_datetime "Datetime"
               (λ r, to_datetime DATETIME_FORMAT (date_time r)) df))
  else Ok df.

(** Convert columns to numeric: every column but ['Datetime']. *)
Definition convert_columns (df : DataFrame) : DataFrame :=
  foldl (λ d col, if bool_decide (col ≠ "Datetime") then to_numeric col d else d)
        df (columns df).

Definition preprocess (df : DataFrame) : result DataFrame :=
  df1 ← handle_date_time df;
  mret (dropna (convert_columns df1)).

End Loader.

(** ** Persisted artifacts and the two globals *)

(** An estimator object is created unfitted; [fit] fits it in place. *)
Inductive estimator (A : Type) : Type :=
  | Unfitted
  | Fitted (a : A).
Arguments Unfitted {A}.
Arguments Fitted {A} a.

(** What a file holds for [joblib.load]: an object, or bytes that do not
    deserialize. *)
Inductive pickle (A : Type) : Type :=
  | Pickled (a : A)
  | Corrupt.
Arguments Pickled {A} a.
Arguments Corrupt {A}.

Section Service.
Context `{Library}.

(** The five paths of the module; [None] is a path that does not exist.
    The two [MODEL_PATH_] fields are the files of the [models] directory. *)
Record Files : Type := {
  DEFAULT_MODEL_FILE : option (pickle (estimator Model));
  DEFAULT_SCALER_FILE : option (pickle (estimator Scaler));
  MODEL_PATH_model : option (pickle (estimator Model));
  MODEL_PATH_scaler : option (pickle (estimator Scaler));
  DEFAULT_DATA_FILE : option string;
}.

(** The globals [model] and [scaler], and the disk. *)
Record State : Type := {
  model : option (estimator Model);
  scaler : option (estimator Scaler);
  files : Files;
}.

Definition os_path_exists {A} (path : option A) : bool :=
  match path with Some _ => true | None => false end.

Definition joblib_load {A} (path : option (pickle A)) : result A :=
  match path with
  | Some (Pickled a) => Ok a
  | Some Corrupt => Raise (Exception "UnpicklingError" "invalid load key")
  | None => Raise (Exception "FileNotFoundError" "No such file or directory")
  end.

Definition load_model (fs : Files)
  : option (estimator Model) * option (estimator Scaler) :=
  let attempt : result (option (estimator Model) * option (estimator Scaler)) :=
    if os_path_exists (DEFAULT_MODEL_FILE fs)
       && os_path_exists (DEFAULT_SCALER_FILE fs) then
      m ← joblib_load (DEFAULT_MODEL_FILE fs);
      s ← joblib_load (DEFAULT_SCALER_FILE fs);
      mret (Some m, Some s)
    else if os_path_exists (MODEL_PATH_model fs)
            && os_path_exists (MODEL_PATH_scaler fs) then
      m ← joblib_load (MODEL_PATH_model fs);
      s ← joblib_load (MODEL_PATH_scaler fs);
      mret (Some m, Some s)
    else mret (None, None) in
  match attempt with
  | Ok ms => ms
  | Raise _ => (None, None)
  end.

Definition load_default_dataset (fs : Files) : option DataFrame :=
  match DEFAULT_DATA_FILE fs with
  | None => None
  | Some contents =>
      match df ← read_csv contents ";" ["?"]; preprocess df with
      | Ok df => Some df
      | Raise _ => None
      end
  end.

(** An uploaded file: its name and its bytes decoded as UTF-8 ([None] when
    they do not decode). *)
Record UploadFile : Type := {
  filename : string;
  contents : option string;
}.

Definition endswith (s suffix : string) : bool :=
  let n := String.length s in
  let k := String.length suffix in
  (k <=? n)%nat && String.eqb (String.substring (n - k) k s) suffix.

Definition decode (file : UploadFile) : result string :=
  match contents file with
  | Some text => Ok text
  | None => Raise (Exception "UnicodeDecodeError"
                     "'utf-8' codec can't decode byte")
  end.

(** The [else] branch of [if file is None] in the two POST handlers. *)
Definition read_upload (file : UploadFile) : result DataFrame :=
  text ← decode file;
  df ← (if endswith (filename file) ".csv" then read_csv text "," []
        else if endswith (filename file) ".txt" then read_csv text ";" ["?"]
        else Raise (HTTPException 400
               "Unsupported file format. Please upload a .csv or .txt file"));
  preprocess df.

(** The whole [if file is None: ... else: ...] of the two POST handlers. *)
Definition load_request (fs : Files) (file : option UploadFile)
  : result DataFrame :=
  match file with
  | None =>
      match load_default_dataset fs with
      | Some df => Ok df
      | None => Raise (HTTPException 400
                         "No file provided and default dataset not found")
      end
  | Some f => read_upload f
  end.

(** ** Features *)

Definition features : list string :=
  ["Global_active_power"; "Global_reactive_power"; "Voltage";
   "Global_intensity"; "Sub_metering_1"; "Sub_metering_2"; "Sub_metering_3"].

Definition missing_features (df : DataFrame) : list string :=
  filter (λ f, f ∉ columns df) features.

(** Python's [repr] of a list of strings, as the f-string prints it. *)
Definition repr_list (l : list string) : string :=
  "[" +:+ String.concat ", " (map (λ s, "'" +:+ s +:+ "'") l) +:+ "]".

Definition check_features (df : DataFrame) : result DataFrame :=
  if bool_decide (missing_features df = []) then Ok df
  else Raise (HTTPException 400
         ("Missing required features: " +:+ repr_list (missing_features df))).

(** [float(v)] of a value read from a row *)
Definition as_float (c : cell) : result float :=
  match c with
  | Num x => Ok x
  | Int z => Ok (float_of_int z)
  | _ => Raise (Exception "ValueError" "could not convert value to float")
  end.

(** [X = df[features]] as the array scikit-learn receives; indexing with a
    label that is no column raises [KeyError]. *)
Definition feature_matrix (df : DataFrame) : result (list (list float)) :=
  if bool_decide (missing_features df = []) then
    mapM (λ ir, mapM (λ f, as_float (at_col f ir.2)) features) (rows df)
  else Raise (Exception "KeyError"
                (repr_list (missing_features df) +:+ " not in index")).

Definition estimator_call {A B} (what : string) (e : estimator A)
    (f : A → result B) : result B :=
  match e with
  | Fitted a => f a
  | Unfitted => Raise (Exception "NotFittedError"
                         ("This " +:+ what +:+ " instance is not fitted yet"))
  end.

(** ** Scoring a frame: the block from [X = df[features]] to
    [df['anomaly_score'] = anomaly_scores] of the three GET/POST handlers *)

(** The dictionary [{1: 0, -1: 1}]; a label outside it maps to NaN. *)
Definition labels : gmap Z Z := {[ 1 := 0; -1 := 1 ]}.

Definition map_labels (c : cell) : cell :=
  match c with
  | Int z => match labels !! z with Some v => Int v | None => NaN end
  | _ => NaN
  end.

Definition score (m : estimator Model) (s : estimator Scaler) (df : DataFrame)
  : result DataFrame :=
  X ← feature_matrix df;
  X_scaled ← estimator_call "StandardScaler" s (λ s, transform s X);
  predictions ← estimator_call "IsolationForest" m (λ m, predict m X_scaled);
  anomaly_scores ←
    estimator_call "IsolationForest" m (λ m, decision_function m X_scaled);
  df ← assign_values "anomaly" (Int <$> predictions) df;
  let df := assign "anomaly" (λ r, map_labels (at_col "anomaly" r)) df in
  assign_values "anomaly_score" (Num <$> anomaly_scores) df.

(** [df['anomaly'] == 1] *)
Definition is_anomaly (r : gmap string cell) : bool :=
  match at_col "anomaly" r with
  | Int 1 => true
  | _ => false
  end.

(** ** Shaping the response *)

Record anomaly_data : Type := {
  datetime : option string;
  global_active_power : float;
  global_reactive_power : float;
  voltage : float;
  global_intensity : float;
  sub_metering_1 : float;
  sub_metering_2 : float;
  sub_metering_3 : float;
  anomaly_score : float;
}.

Record PredictionResponse : Type := {
  anomalies : list anomaly_data;
  anomaly_count : Z;
  total_records : Z;
  anomaly_percentage : float;
}.

(** [row["Datetime"].isoformat() if "Datetime" in row.index else None] *)
Definition row_datetime (cols : list string) (r : gmap string cell)
  : result (option string) :=
  if bool_decide ("Datetime" ∈ cols) then
    match at_col "Datetime" r with
    | Stamp t => Ok (Some (isoformat t))
    | NaN => Ok (Some "NaT")
    | _ => Raise (Exception "AttributeError"
                    "object has no attribute 'isoformat'")
    end
  else Ok None.

(** The dictionary built in the body of [for _, row in anomaly_df.iterrows()].
    [get_anomalies] wraps every value in [float(...)]; the two other
    handlers do so for the score only and pass the seven readings on as
    they are, which on a loaded frame are floats already. *)
Definition anomaly_entry (cols : list string) (r : gmap string cell)
  : result anomaly_data :=
  dt ← row_datetime cols r;
  gap ← as_float (at_col "Global_active_power" r);
  grp ← as_float (at_col "Global_reactive_power" r);
  v ← as_float (at_col "Voltage" r);
  gi ← as_float (at_col "Global_intensity" r);
  s1 ← as_float (at_col "Sub_metering_1" r);
  s2 ← as_float (at_col "Sub_metering_2" r);
  s3 ← as_float (at_col "Sub_metering_3" r);
  sc ← as_float (at_col "anomaly_score" r);
  mret {| datetime := dt; global_active_power := gap;
          global_reactive_power := grp; voltage := v; global_intensity := gi;
          sub_metering_1 := s1; sub_metering_2 := s2; sub_metering_3 := s3;
          anomaly_score := sc |}.

(** [(total_anomalies / total_records) * 100 if total_records > 0 else 0] *)
Definition percentage (total_anomalies total_records : Z) : float :=
  if 0 <? total_records then
    float_mul (int_truediv total_anomalies total_records) (float_of_int 100)
  else float_of_int 0.

(** The loop over [anomaly_df], the statistics and the returned dictionary. *)
Definition respond (anomaly_df df : DataFrame) : result PredictionResponse :=
  entries ← mapM (λ ir, anomaly_entry (columns anomaly_df) ir.2)
                 (rows anomaly_df);
  let total_anomalies := Z.of_nat (length entries) in
  let total_records := len df in
  mret {| anomalies := entries;
          anomaly_count := total_anomalies;
          total_records := total_records;
          anomaly_percentage := percentage total_anomalies total_records |}.

(** ** GET / *)

Definition read_root : string := "Welcome to the Anomaly Detection API".

(** ** POST /predict *)

(** The frame [df] of [predict_anomalies] when it reaches [# Prepare the
    response]: loaded, checked for the features and scored. *)
Definition predict_frame (m : estimator Model) (s : estimator Scaler)
    (fs : Files) (file : option UploadFile) : result DataFrame :=
  df ← load_request fs file;
  df ← check_features df;
  score m s df.

Definition predict_anomalies (st : State) (file : option UploadFile)
  : result PredictionResponse :=
  match model st, scaler st with
  | Some m, Some s =>
      except_Exception "Error processing file: "
        (df ← predict_frame m s (files st) file;
         let anomaly_df := select is_anomaly df in
         respond anomaly_df df)
  | _, _ =>
      Raise (HTTPException 500
               "Model not trained yet. Please upload a training dataset first.")
  end.

(** ** POST /train *)

(** [scaler = StandardScaler(); X_scaled = scaler.fit_transform(X)]: the
    object bound to the global, and the scaled matrix or the exception. *)
Definition fit_transform (X : list (list float))
  : estimator Scaler * result (list (list float)) :=
  match StandardScaler_fit X with
  | Ok s => (Fitted s, transform s X)
  | Raise e => (Unfitted, Raise e)
  end.

(** The inner [try]/[except] of [train_model]: try to load the existing
    scaler or create a new one; on any error create a new one. *)
Definition scale_for_training (fs : Files) (X : list (list float))
  : estimator Scaler * result (list (list float)) :=
  if os_path_exists (DEFAULT_SCALER_FILE fs) then
    match s ← joblib_load (DEFAULT_SCALER_FILE fs);
          X_scaled ← estimator_call "StandardScaler" s (λ s, transform s X);
          mret (s, X_scaled) with
    | Ok (s, X_scaled) => (s, Ok X_scaled)
    | Raise _ => fit_transform X
    end
  else
    match fit_transform X with
    | (s, Ok X_scaled) => (s, Ok X_scaled)
    | (_, Raise _) => fit_transform X
    end.

(** [joblib.dump] of both objects to both locations *)
Definition save (m : estimator Model) (s : estimator Scaler) (fs : Files)
  : Files :=
  {| DEFAULT_MODEL_FILE := Some (Pickled m);
     DEFAULT_SCALER_FILE := Some (Pickled s);
     MODEL_PATH_model := Some (Pickled m);
     MODEL_PATH_scaler := Some (Pickled s);
     DEFAULT_DATA_FILE := DEFAULT_DATA_FILE fs |}.

Definition train_error {A} (e : exn) : result A :=
  Raise (HTTPException 500 ("Error training model: " +:+ str e)).

(** The matrix [X] of [train_model]: everything before the inner [try]. *)
Definition training_matrix (fs : Files) (file : option UploadFile)
  : result (list (list float)) :=
  df ← load_request fs file;
  df ← check_features df;
  feature_matrix df.

Definition train_model (st : State) (file : option UploadFile)
  : result string * State :=
  match training_matrix (files st) file with
  | Raise e => (train_error e, st)
  | Ok X =>
      match scale_for_training (files st) X with
      | (s, Raise e) =>
          (train_error e,
           {| model := model st; scaler := Some s; files := files st |})
      | (s, Ok X_scaled) =>
          match IsolationForest_fit 100 (1 # 100) 42 X_scaled with
          | Raise e =>
              (train_error e,
               {| model := Some Unfitted; scaler := Some s;
                  files := files st |})
          | Ok m =>
              (Ok "Model trained and saved successfully",
               {| model := Some (Fitted m); scaler := Some s;
                  files := save (Fitted m) s (files st) |})
          end
      end
  end.

End Service.

(** ** The two GET handlers over the default dataset *)

Section Queries.
Context `{Library}.

(** The module-level [model, scaler = load_model()] *)
Definition startup (fs : Files) : State :=
  let ms := load_model fs in
  {| model := ms.1; scaler := ms.2; files := fs |}.

(** The first lines of both handlers: when a global is [None], try to load
    the models first; the call rebinds both globals. *)
Definition ensure_models (st : State) : State :=
  match model st, scaler st with
  | Some _, Some _ => st
  | _, _ =>
      let ms := load_model (files st) in
      {| model := ms.1; scaler := ms.2; files := files st |}
  end.

(** Truth value of an [Optional[str]] *)
Definition given (s : option string) : bool :=
  match s with
  | Some text => negb (String.eqb text "")
  | None => false
  end.

(** [df[df["Datetime"] op bound]].  A column of dtype datetime64[ns] is
    tz-naive, and pandas refuses to compare it with a tz-aware timestamp,
    with rows or without.  Otherwise the comparison goes cell by cell:
    comparing a string cell with a timestamp raises; a missing cell
    compares false. *)
Definition comparable (c : cell) : bool :=
  match c with
  | Stamp _ | NaN => true
  | _ => false
  end.

Definition filter_datetime (op : Z → Z → bool) (bound : Timestamp)
    (df : DataFrame) : result DataFrame :=
  if tz_aware bound && bool_decide ("Datetime" ∈ datetimes df) then
    Raise (Exception "TypeError"
             "Invalid comparison between dtype=datetime64[ns] and Timestamp")
  else if forallb comparable (series "Datetime" df) then
    Ok (select (λ r, match at_col "Datetime" r with
                     | Stamp t => op t (seconds bound)
                     | _ => false
                     end) df)
  else Raise (Exception "TypeError"
                "'>=' not supported between instances of 'str' and 'Timestamp'").

(** One of the two date blocks: its own [try]/[except Exception] turns
    every error into a 400. *)
Definition date_filter (name : string) (op : Z → Z → bool)
    (date : option string) (df : DataFrame) : result DataFrame :=
  match date with
  | Some text =>
      if given date && has_column "Datetime" df then
        match
          (bound ← match parse_datetime text with
                   | Some t => Ok t
                   | None => Raise (Exception "ValueError"
                       ("Invalid " +:+ name +:+ " format: " +:+ text))
                   end;
           filter_datetime op bound df)
        with
        | Ok df' => Ok df'
        | Raise e => Raise (HTTPException 400
                       ("Invalid " +:+ name +:+ " format: " +:+ str e))
        end
      else Ok df
  | None => Ok df
  end.

(** [df.sort_values(by=col, ascending=False)].  The order pandas gives to
    rows with equal keys is left open by its default sort; the model keeps
    them in the order of a merge sort. *)
Definition sort_key (col : string) (r : gmap string cell) : option float :=
  match at_col col r with
  | Num x => Some x
  | Int z => Some (float_of_int z)
  | _ => None
  end.

(** [a] may stand before [b] in descending order; missing keys go last. *)
Definition descending (col : string) (a b : nat * gmap string cell) : Prop :=
  match sort_key col a.2, sort_key col b.2 with
  | Some x, Some y => float_ltb x y = false
  | Some _, None => True
  | None, Some _ => False
  | None, None => True
  end.

Global Instance descending_dec col a b : Decision (descending col a b).
Proof.
  unfold descending.
  destruct (sort_key col a.2), (sort_key col b.2); apply _.
Defined.

Definition sort_values (col : string) (df : DataFrame) : DataFrame :=
  {| columns := columns df;
     rows := merge_sort (descending col) (rows df);
     datetimes := datetimes df |}.

Definition max_anomalies : nat := 1000.

Definition empty_response : PredictionResponse :=
  {| anomalies := []; anomaly_count := 0; total_records := 0;
     anomaly_percentage := float_of_int 0 |}.

(** The frame [df] of [get_anomalies] when it reaches [# Prepare the
    response]: loaded, filtered by date, scored and possibly sorted.
    [None] stands for the early [return] on an empty frame. *)
Definition anomalies_frame (m : estimator Model) (s : estimator Scaler)
    (fs : Files) (start_date end_date feature_filter : option string)
  : result (option DataFrame) :=
  df ← match load_default_dataset fs with
       | Some df => Ok df
       | None => Raise (HTTPException 404 "Default dataset not found")
       end;
  df ← date_filter "start_date" Z.geb start_date df;
  df ← date_filter "end_date" Z.leb end_date df;
  if len df =? 0 then mret None
  else
    df ← score m s df;
    match feature_filter with
    | Some f =>
        if given feature_filter && bool_decide (f ∈ features)
        then mret (Some (sort_values f df))
        else mret (Some df)
    | None => mret (Some df)
    end.

Definition get_anomalies (st : State)
    (start_date end_date feature_filter : option string)
  : result PredictionResponse * State :=
  let st := ensure_models st in
  match model st, scaler st with
  | Some m, Some s =>
      (except_HTTPException_reraise "Error analyzing dataset: "
         (frame ← anomalies_frame m s (files st)
                    start_date end_date feature_filter;
          match frame with
          | None => mret empty_response
          | Some df =>
              let anomaly_df := select is_anomaly df in
              let anomaly_df := head max_anomalies anomaly_df in
              respond anomaly_df df
          end),
       st)
  | _, _ =>
      (Raise (HTTPException 500
                "Models not available. Please train the model first."), st)
  end.

(** [df.sample(n, random_state=42)] *)
Definition sample (n : nat) (random_state : Z) (df : DataFrame) : DataFrame :=
  {| columns := columns df;
     rows := omap (λ p, rows df !! p)
                  (sample_positions random_state (length (rows df)) n);
     datetimes := datetimes df |}.

(** The frame [df] of [analyze_default_dataset] when it reaches
    [# Prepare the response]: loaded, possibly sampled, and scored. *)
Definition analyze_frame (m : estimator Model) (s : estimator Scaler)
    (fs : Files) (sample_size : option Z) : result DataFrame :=
  df ← match load_default_dataset fs with
       | Some df => Ok df
       | None => Raise (HTTPException 404 "Default dataset not found")
       end;
  let df :=
    match sample_size with
    | Some n =>
        if negb (n =? 0) && (0 <? n) && (n <? len df)
        then sample (Z.to_nat n) 42 df
        else df
    | None => df
    end in
  score m s df.

Definition analyze_default_dataset (st : State) (sample_size : option Z)
  : result PredictionResponse * State :=
  let st := ensure_models st in
  match model st, scaler st with
  | Some m, Some s =>
      (except_Exception "Error analyzing default dataset: "
         (df ← analyze_frame m s (files st) sample_size;
          let anomaly_df := select is_anomaly df in
          respond anomaly_df df),
       st)
  | _, _ =>
      (Raise (HTTPException 500
                "Models not available. Please train the model first."), st)
  end.

(** ** The routes that answer with a [PredictionResponse] *)

Inductive prediction_request : Type :=
  | POST_predict (file : option UploadFile)
  | GET_anomalies (start_date end_date feature_filter : option string)
  | GET_analyze_default_data (sample_size : option Z).

Definition serve (st : State) (q : prediction_request)
  : result PredictionResponse * State :=
  match q with
  | POST_predict file => (predict_anomalies st file, st)
  | GET_anomalies start_date end_date feature_filter =>
      get_anomalies st start_date end_date feature_filter
  | GET_analyze_default_data sample_size =>
      analyze_default_dataset st sample_size
  end.

End Queries.

(** ** Vocabulary of the statements *)

Section Vocabulary.
Context `{Library}.

(** A response is either the early return of [get_anomalies] or shaped by
    [respond] from a frame and its flagged rows. *)
Inductive shaped (r : PredictionResponse) : Prop :=
  | shaped_empty : r = empty_response → shaped r
  | shaped_respond anomaly_df df : respond anomaly_df df = Ok r → shaped r.

(** The text a request of /predict or /train is read from, with the
    separator and the missing-value markers its [read_csv] call passes. *)
Definition request_source (fs : Files) (file : option UploadFile)
  : option (string * ascii * list string) :=
  match file with
  | None => text ← DEFAULT_DATA_FILE fs; Some (text, ";"%char, ["?"])
  | Some f =>
      text ← contents f;
      if endswith (filename f) ".csv" then Some (text, ","%char, [])
      else if endswith (filename f) ".txt" then Some (text, ";"%char, ["?"])
      else None
  end.

(** A record as a dictionary from the labels of the header to its fields. *)
Definition record_dict (hdr fields : list string) : gmap string string :=
  list_to_map (zip hdr fields).

(** Every key of every row is a column of the frame. *)
Definition labelled (df : DataFrame) : Prop :=
  ∀ ir c, ir ∈ rows df → is_Some (ir.2 !! c) → c ∈ columns df.

(** The cells [read_csv] produces: missing, a string or a float. *)
Definition read_kind (c : cell) : Prop :=
  match c with
  | NaN | Str _ | Num _ => True
  | Int _ | Stamp _ => False
  end.

(** What [convert_columns] does to one row. *)
Definition convert_row (cols : list string) (r : gmap string cell)
  : gmap string cell :=
  foldl (λ r col, if bool_decide (col ≠ "Datetime")
                  then <[col := to_numeric_cell (at_col col r)]> r else r)
        r cols.

(** What [handle_date_time] does to one row when it combines the columns. *)
Definition combine_row (r : gmap string cell) : gmap string cell :=
  foldr delete
    (<["Datetime" := to_datetime DATETIME_FORMAT (date_time r)]> r)
    ["Date"; "Time"].

(** The state of a row while [read_csv] infers the dtypes: its keys are
    labels of the header, its cells are missing, strings or floats, and
    under a field "?" the cell is missing or still the string "?". *)
Definition read_state (hdr na_values fields : list string)
    (r : gmap string cell) : Prop :=
  (∀ c, is_Some (r !! c) → c ∈ hdr)
  ∧ (∀ c, read_kind (at_col c r))
  ∧ (∀ c, "?" ∈ na_values ∨ to_numeric1 "?" = None →
          record_dict hdr fields !! c = Some "?" →
          at_col c r = NaN ∨ (at_col c r = Str "?" ∧ to_numeric1 "?" = None)).

(** The invariant of the loop over the header. *)
Definition reading (text : string) (sep : ascii) (na_values : list string)
    (df : DataFrame) : Prop :=
  columns df = header sep text
  ∧ ∀ ir, ir ∈ rows df →
      ∃ fields, records sep text !! ir.1 = Some fields
                ∧ read_state (header sep text) na_values fields ir.2.



(** A training goes on with the scaler [s] and the scaled features
    [X_scaled]: [s] is the global scaler afterwards, the forest is fit on
    [X_scaled] with the fixed hyperparameters, and when that succeeds the
    fitted forest and [s] are the globals and the objects saved. *)
Definition trains_with (st : State) (file : option UploadFile)
    (s : estimator Scaler) (X_scaled : list (list float)) : Prop :=
  scaler (train_model st file).2 = Some s
  ∧ (∀ m, IsolationForest_fit 100 (1 # 100) 42 X_scaled = Ok m →
          train_model st file
          = (Ok "Model trained and saved successfully",
             {| model := Some (Fitted m); scaler := Some s;
                files := save (Fitted m) s (files st) |}))
  ∧ (∀ e, IsolationForest_fit 100 (1 # 100) 42 X_scaled = Raise e →
          train_model st file
          = (train_error e,
             {| model := Some Unfitted; scaler := Some s;
                files := files st |})).

End Vocabulary.

(** ** An implementation of the interface

    Floats are exact rationals, the scaler subtracts the column means, and
    the forest flags a row whose first scaled feature is further from zero
    than a threshold.  The parsers read plain decimal numbers, the
    timestamp format of the dataset and ISO dates. *)

Module Demo.

Definition digit (c : ascii) : option Z :=
  let n := Z.of_nat (nat_of_ascii c) in
  if (48 <=? n) && (n <=? 57) then Some (n - 48) else None.

Fixpoint digits_from (acc : Z) (s : string) : option Z :=
  match s with
  | EmptyString => Some acc
  | String c s' =>
      match digit c with
      | Some d => digits_from (10 * acc + d) s'
      | None => None
      end
  end.

Definition natural (s : string) : option Z :=
  match s with
  | EmptyString => None
  | _ => digits_from 0 s
  end.

Definition unsigned_decimal (s : string) : option Q :=
  match split_on "."%char s with
  | [whole] => n ← natural whole; Some (inject_Z n)
  | [whole; frac] =>
      n ← natural whole;
      f ← natural frac;
      let scale := 10 ^ Z.of_nat (String.length frac) in
      Some (Qred (Qmake (n * scale + f) (Z.to_pos scale)))
  | _ => None
  end.

Definition decimal (s : string) : option Q :=
  match s with
  | String "-"%char s' => q ← unsigned_decimal s'; Some (Qopp q)
  | _ => unsigned_decimal s
  end.

(** Days since 1970-01-01 of a date of the proleptic Gregorian calendar. *)
Definition days_from_civil (y m d : Z) : Z :=
  let y' := if m <=? 2 then y - 1 else y in
  let era := y' / 400 in
  let yoe := y' - era * 400 in
  let mp := (m + 9) mod 12 in
  let doy := (153 * mp + 2) / 5 + d - 1 in
  let doe := yoe * 365 + yoe / 4 - yoe / 100 + doy in
  era * 146097 + doe - 719468.

Definition civil_from_days (z : Z) : Z * Z * Z :=
  let z := z + 719468 in
  let era := z / 146097 in
  let doe := z - era * 146097 in
  let yoe := (doe - doe / 1460 + doe / 36524 - doe / 146096) / 365 in
  let doy := doe - (365 * yoe + yoe / 4 - yoe / 100) in
  let mp := (5 * doy + 2) / 153 in
  let d := doy - (153 * mp + 2) / 5 + 1 in
  let m := if mp <? 10 then mp + 3 else mp - 9 in
  let y := yoe + era * 400 in
  (if m <=? 2 then y + 1 else y, m, d).

Definition leap (y : Z) : bool :=
  (y mod 4 =? 0) && (negb (y mod 100 =? 0) || (y mod 400 =? 0)).

Definition days_in_month (y m : Z) : Z :=
  if m =? 2 then (if leap y then 29 else 28)
  else if (m =? 4) || (m =? 6) || (m =? 9) || (m =? 11) then 30
  else 31.

Definition timestamp (y m d hh mm ss : Z) : option Z :=
  if (1 <=? m) && (m <=? 12) && (1 <=? d) && (d <=? days_in_month y m)
     && (hh <? 24) && (mm <? 60) && (ss <? 60)
  then Some (days_from_civil y m d * 86400 + hh * 3600 + mm * 60 + ss)
  else None.

Definition clock (s : string) : option (Z * Z * Z) :=
  match split_on ":"%char s with
  | [hh; mm; ss] =>
      h ← natural hh; m ← natural mm; s ← natural ss; Some (h, m, s)
  | _ => None
  end.

(** "%d/%m/%Y %H:%M:%S" is the one format the service asks for. *)
Definition demo_strptime (fmt s : string) : option Z :=
  if String.eqb fmt "%d/%m/%Y %H:%M:%S" then
    match split_on " "%char s with
    | [date; time] =>
        match split_on "/"%char date with
        | [dd; mm; yyyy] =>
            d ← natural dd; m ← natural mm; y ← natural yyyy;
            '(hh, mi, ss) ← clock time;
            timestamp y m d hh mi ss
        | _ => None
        end
    | _ => None
    end
  else None.

(** The text before a final "Z", the mark of UTC, and whether it was
    there. *)
Fixpoint utc_suffix (s : string) : string * bool :=
  match s with
  | EmptyString => (EmptyString, false)
  | String c s' =>
      if String.eqb s "Z" then (EmptyString, true)
      else let '(r, z) := utc_suffix s' in (String c r, z)
  end.

(** "YYYY-MM-DD", optionally followed by " HH:MM:SS" or "THH:MM:SS", and
    then optionally by "Z", which makes the timestamp tz-aware. *)
Definition demo_parse_datetime (s : string) : option Timestamp :=
  let date_of (date : string) (hh mi ss : Z) :=
    match split_on "-"%char date with
    | [yyyy; mm; dd] =>
        y ← natural yyyy; m ← natural mm; d ← natural dd;
        timestamp y m d hh mi ss
    | _ => None
    end in
  let '(text, utc) := utc_suffix s in
  t ← match split_on " "%char text with
      | [date] =>
          match split_on "T"%char date with
          | [date] => date_of date 0 0 0
          | [date; time] => '(hh, mi, ss) ← clock time; date_of date hh mi ss
          | _ => None
          end
      | [date; time] => '(hh, mi, ss) ← clock time; date_of date hh mi ss
      | _ => None
      end;
  Some {| seconds := t; tz_aware := utc |}.

Definition two_digits (n : Z) : string :=
  if n <? 10 then "0" +:+ pretty n else pretty n.

Definition demo_isoformat (t : Z) : string :=
  let '(y, m, d) := civil_from_days (t / 86400) in
  let s := t mod 86400 in
  pretty y +:+ "-" +:+ two_digits m +:+ "-" +:+ two_digits d +:+ "T"
  +:+ two_digits (s / 3600) +:+ ":" +:+ two_digits (s mod 3600 / 60)
  +:+ ":" +:+ two_digits (s mod 60).

Definition Qsum (l : list Q) : Q := foldr Qplus 0%Q l.

Definition column_means (X : list (list Q)) : list Q :=
  let n := inject_Z (Z.of_nat (length X)) in
  map (λ j, Qred (Qsum (map (λ row, nth j row 0%Q) X) / n))
      (seq 0 (length (List.hd [] X))).

Definition demo_fit (X : list (list Q)) : result (list Q) :=
  match X with
  | [] => Raise (Exception "ValueError"
                   "Found array with 0 sample(s) while a minimum of 1 is required")
  | _ => Ok (column_means X)
  end.

Definition demo_transform (means : list Q) (X : list (list Q))
  : result (list (list Q)) :=
  match X with
  | [] => Raise (Exception "ValueError"
                   "Found array with 0 sample(s) while a minimum of 1 is required")
  | _ =>
      if forallb (λ row, (length row =? length means)%nat) X then
        Ok (map (λ row, zip_with (λ x mu, Qred (x - mu)) row means) X)
      else Raise (Exception "ValueError"
                    "X has a different number of features than the scaler")
  end.

Definition first_feature (row : list Q) : Q := nth 0 row 0%Q.

Definition Qabs' (x : Q) : Q := if Qle_bool 0 x then x else Qopp x.

Definition demo_label (threshold : Q) (row : list Q) : Z :=
  if Qle_bool (Qabs' (first_feature row)) threshold then 1 else -1.

#[export] Instance demo : Library := {|
  float := Q;
  float_of_int := inject_Z;
  int_truediv a b := Qred (inject_Z a / inject_Z b);
  float_mul x y := Qred (x * y);
  float_ltb x y := negb (Qle_bool y x);
  to_numeric1 := decimal;
  strptime := demo_strptime;
  parse_datetime := demo_parse_datetime;
  isoformat := demo_isoformat;
  Scaler := list Q;
  Model := Q;
  StandardScaler_fit := demo_fit;
  transform := demo_transform;
  IsolationForest_fit _ _ _ X :=
    match X with
    | [] => Raise (Exception "ValueError" "Found array with 0 sample(s)")
    | _ => Ok 5%Q
    end;
  predict threshold X := Ok (map (demo_label threshold) X);
  decision_function threshold X :=
    Ok (map (λ row, Qred (threshold - Qabs' (first_feature row))) X);
  sample_positions _ _ n := seq 0 n;
|}.

(** A default dataset of five records, the third with missing readings. *)
Definition dataset : string :=
  "Date;Time;Global_active_power;Global_reactive_power;Voltage;Global_intensity;Sub_metering_1;Sub_metering_2;Sub_metering_3
16/12/2006;17:24:00;4.216;0.418;234.840;18.400;0.000;1.000;17.000
16/12/2006;17:25:00;5.360;0.436;233.630;23.000;0.000;1.000;16.000
28/4/2007;00:21:00;?;?;?;?;?;?;
28/4/2007;00:22:00;3.666;0.528;235.680;15.800;0.000;1.000;17.000
28/4/2007;00:23:00;14.500;0.498;233.290;62.000;0.000;2.000;17.000
".

Definition no_files : Files :=
  {| DEFAULT_MODEL_FILE := None; DEFAULT_SCALER_FILE := None;
     MODEL_PATH_model := None; MODEL_PATH_scaler := None;
     DEFAULT_DATA_FILE := Some dataset |}.

Definition untrained : State := startup no_files.

Definition trained : State := (train_model untrained None).2.

(** The answer of /predict, after training, for the default dataset. *)
Definition predicted : PredictionResponse :=
  from_Ok empty_response (predict_anomalies trained None).


Definition loaded : DataFrame :=
  from_Ok {| columns := []; rows := []; datetimes := [] |} (load_request (files trained) None).

(** Uploads: a file that is neither .csv nor .txt, and a .csv file without
    the column [Voltage]. *)
Definition json_upload : UploadFile :=
  {| filename := "readings.json"; contents := Some "{}" |}.

Definition no_voltage_upload : UploadFile :=
  {| filename := "readings.csv";
     contents := Some
       "Global_active_power,Global_reactive_power,Global_intensity,Sub_metering_1,Sub_metering_2,Sub_metering_3
4.216,0.418,18.400,0.000,1.000,17.000
" |}.

(** A file of [n] identical readings far from those of [dataset]. *)
Definition newline : string := String "010"%char EmptyString.

Definition surge (sep : string) (n : nat) : string :=
  String.concat sep features +:+ newline
  +:+ String.concat newline
        (replicate n (String.concat sep ["20"; "0.5"; "230"; "80"; "0"; "0"; "0"]))
  +:+ newline.

Definition surge_upload : UploadFile :=
  {| filename := "surge.csv"; contents := Some (surge "," 1001) |}.

(** The trained service with a default dataset of 1001 such readings. *)
Definition surged : State :=
  {| model := model trained; scaler := scaler trained;
     files := {| DEFAULT_MODEL_FILE := DEFAULT_MODEL_FILE (files trained);
                 DEFAULT_SCALER_FILE := DEFAULT_SCALER_FILE (files trained);
                 MODEL_PATH_model := MODEL_PATH_model (files trained);
                 MODEL_PATH_scaler := MODEL_PATH_scaler (files trained);
                 DEFAULT_DATA_FILE := Some (surge ";" 1001) |} |}.

(** The trained service after its primary scaler file was overwritten with
    bytes that do not deserialize, and with a scaler fitted on three
    features. *)
Definition with_scaler_file (f : pickle (estimator Scaler)) : State :=
  {| model := model trained; scaler := scaler trained;
     files := {| DEFAULT_MODEL_FILE := DEFAULT_MODEL_FILE (files trained);
                 DEFAULT_SCALER_FILE := Some f;
                 MODEL_PATH_model := MODEL_PATH_model (files trained);
                 MODEL_PATH_scaler := MODEL_PATH_scaler (files trained);
                 DEFAULT_DATA_FILE := DEFAULT_DATA_FILE (files trained) |} |}.

Definition corrupted : State := with_scaler_file Corrupt.

Definition narrow_scaler : estimator Scaler := Fitted [1; 2; 3]%Q.

Definition mismatched : State := with_scaler_file (Pickled narrow_scaler).

Definition training_X : list (list Q) :=
  from_Ok [] (training_matrix (files trained) None).

Definition fitted_model : estimator Model := default Unfitted (model trained).
Definition fitted_scaler : estimator Scaler := default Unfitted (scaler trained).

(** The frame /anomalies prepares from it, and its answer. *)
Definition surge_frame : DataFrame :=
  default {| columns := []; rows := []; datetimes := [] |}
    (from_Ok None (anomalies_frame fitted_model fitted_scaler (files surged)
                     None None None)).

Definition surge_answer : PredictionResponse :=
  from_Ok empty_response (get_anomalies surged None None None).1.

(** The trained service with a default dataset of a header and no record,
    and without a primary scaler file. *)
Definition emptied : State :=
  {| model := model trained; scaler := scaler trained;
     files := {| DEFAULT_MODEL_FILE := DEFAULT_MODEL_FILE (files trained);
                 DEFAULT_SCALER_FILE := None;
                 MODEL_PATH_model := MODEL_PATH_model (files trained);
                 MODEL_PATH_scaler := MODEL_PATH_scaler (files trained);
                 DEFAULT_DATA_FILE := Some (surge ";" 0) |} |}.

(** The trained service after its default dataset was removed. *)
Definition datasetless : State :=
  {| model := model trained; scaler := scaler trained;
     files := {| DEFAULT_MODEL_FILE := DEFAULT_MODEL_FILE (files trained);
                 DEFAULT_SCALER_FILE := DEFAULT_SCALER_FILE (files trained);
                 MODEL_PATH_model := MODEL_PATH_model (files trained);
                 MODEL_PATH_scaler := MODEL_PATH_scaler (files trained);
                 DEFAULT_DATA_FILE := None |} |}.

(** The trained service with an empty file as its default dataset. *)
Definition blank : State :=
  {| model := model trained; scaler := scaler trained;
     files := {| DEFAULT_MODEL_FILE := DEFAULT_MODEL_FILE (files trained);
                 DEFAULT_SCALER_FILE := DEFAULT_SCALER_FILE (files trained);
                 MODEL_PATH_model := MODEL_PATH_model (files trained);
                 MODEL_PATH_scaler := MODEL_PATH_scaler (files trained);
                 DEFAULT_DATA_FILE := Some "" |} |}.

(** A process whose globals are empty while the disk holds the artifacts
    of a training. *)
Definition cold : State :=
  {| model := None; scaler := None; files := files trained |}.

(** A second training set, of two readings. *)
Definition later_upload : UploadFile :=
  {| filename := "later.csv"; contents := Some (surge "," 2) |}.







Definition no_voltage : DataFrame :=
  from_Ok {| columns := []; rows := []; datetimes := [] |}
    (load_request (files trained) (Some no_voltage_upload)).

(** The default dataset scored, the frame /anomalies sorts by Voltage,
    and its answers with and without that filter. *)
Definition scored : DataFrame :=
  from_Ok {| columns := []; rows := []; datetimes := [] |}
    (score fitted_model fitted_scaler loaded).

Definition sorted_frame : DataFrame :=
  default {| columns := []; rows := []; datetimes := [] |}
    (from_Ok None (anomalies_frame fitted_model fitted_scaler (files trained)
                     None None (Some "Voltage"))).

Definition sorted_answer : PredictionResponse :=
  from_Ok empty_response (get_anomalies trained None None (Some "Voltage")).1.

Definition plain_answer : PredictionResponse :=
  from_Ok empty_response (get_anomalies trained None None None).1.

End Demo.

(** * Properties *)

(** ** The error monad *)

Lemma bind_Ok {A B} (r : result A) (k : A → result B) (b : B) :
  r ≫= k = Ok b → ∃ a, r = Ok a ∧ k a = Ok b.
Proof. destruct r as [a|e]; [eauto | discriminate]. Qed.

Lemma mapM_Ok_length {A B} (f : A → result B) (l : list A) (k : list B) :
  mapM f l = Ok k → length k = length l.
Proof.
  revert k. induction l as [|a l IH]; intros k Hk; simpl in Hk.
  - injection Hk as <-. reflexivity.
  - apply bind_Ok in Hk as (b & _ & Hk).
    apply bind_Ok in Hk as (bs & Hbs & Hk).
    injection Hk as <-. simpl. f_equal. auto.
Qed.

Lemma Ok_from_Ok {A} (d : A) (r : result A) :
  is_Ok r = true → r = Ok (from_Ok d r).
Proof. destruct r; [reflexivity | discriminate]. Qed.

Lemma Ok_Some_from_Ok {A} (d : A) (r : result (option A)) :
  is_Ok r && bool_decide (is_Some (from_Ok None r)) = true →
  r = Ok (Some (default d (from_Ok None r))).
Proof. destruct r as [[a|]|]; [reflexivity | discriminate..]. Qed.

Lemma except_Exception_Ok {A} prefix (body : result A) a :
  except_Exception prefix body = Ok a → body = Ok a.
Proof. destruct body; [trivial | discriminate]. Qed.

Lemma except_Exception_Raise {A} prefix (body : result A) e :
  except_Exception prefix body = Raise e → ∃ d, e = HTTPException 500 d.
Proof.
  destruct body as [|e']; [discriminate |].
  intros [= <-]. eauto.
Qed.

Lemma except_reraise_Ok {A} prefix (body : result A) a :
  except_HTTPException_reraise prefix body = Ok a → body = Ok a.
Proof. destruct body as [|[]]; [trivial | discriminate..]. Qed.

Ltac bind_inv H :=
  repeat match type of H with
  | (_ ≫= _) = Ok _ =>
      let a := fresh "x" in
      let Ha := fresh "H" a in
      apply bind_Ok in H as (a & Ha & H)
  end.

Section Responses.
Context `{Library}.

(** ** What a shaped response holds *)

Lemma respond_Ok anomaly_df df r :
  respond anomaly_df df = Ok r →
  length (anomalies r) = length (rows anomaly_df)
  ∧ anomaly_count r = Z.of_nat (length (anomalies r))
  ∧ total_records r = len df
  ∧ anomaly_percentage r = percentage (anomaly_count r) (total_records r).
Proof.
  unfold respond. intros Hr.
  apply bind_Ok in Hr as (entries & Hentries & Hr).
  injection Hr as <-. simpl.
  apply mapM_Ok_length in Hentries. auto.
Qed.

Lemma serve_shaped st q r : (serve st q).1 = Ok r → shaped r.
Proof.
  destruct q as [file | sd ed ff | n]; simpl.
  - unfold predict_anomalies.
    destruct (model st), (scaler st); try discriminate.
    intros Hr%except_Exception_Ok. bind_inv Hr.
    eapply shaped_respond; eauto.
  - unfold get_anomalies.
    destruct (model (ensure_models st)), (scaler (ensure_models st));
      try discriminate.
    simpl. intros Hr%except_reraise_Ok. bind_inv Hr.
    destruct x as [df|].
    + eapply shaped_respond; eauto.
    + injection Hr as <-. by apply shaped_empty.
  - unfold analyze_default_dataset.
    destruct (model (ensure_models st)), (scaler (ensure_models st));
      try discriminate.
    simpl. intros Hr%except_Exception_Ok. bind_inv Hr.
    eapply shaped_respond; eauto.
Qed.

Lemma percentage_zero n : percentage n 0 = float_of_int 0.
Proof. reflexivity. Qed.

End Responses.

(** ** Frames, row by row *)

Section FrameLemmas.
Context `{Library}.

Lemma at_col_insert c c' v (r : gmap string cell) :
  at_col c (<[c' := v]> r) = if decide (c' = c) then v else at_col c r.
Proof. unfold at_col. rewrite lookup_insert. by case_decide. Qed.

Lemma at_col_delete c c' (r : gmap string cell) :
  at_col c (delete c' r) = if decide (c' = c) then NaN else at_col c r.
Proof. unfold at_col. rewrite lookup_delete. by case_decide. Qed.

Lemma to_numeric_cell_idem c :
  to_numeric_cell (to_numeric_cell c) = to_numeric_cell c.
Proof. destruct c as [|s| | |]; simpl; try done. by destruct (to_numeric1 s). Qed.

Lemma to_numeric_cell_read_kind c :
  read_kind c → to_numeric_cell c = NaN ∨ ∃ x, to_numeric_cell c = Num x.
Proof.
  destruct c as [|s|x| |]; simpl; try done; eauto.
  destruct (to_numeric1 s); eauto.
Qed.

Lemma elem_of_rows_assign c g df ir' :
  ir' ∈ rows (assign c g df) ↔
  ∃ ir, ir ∈ rows df ∧ ir' = (ir.1, <[c := g ir.2]> ir.2).
Proof.
  unfold assign. simpl. rewrite list_elem_of_fmap. naive_solver.
Qed.

Lemma elem_of_rows_select keep df ir :
  ir ∈ rows (select keep df) ↔ ir ∈ rows df ∧ keep ir.2 = true.
Proof. unfold select. simpl. rewrite list_elem_of_filter. naive_solver. Qed.

Lemma columns_assign_present c g df :
  c ∈ columns df → columns (assign c g df) = columns df.
Proof.
  intros Hc. unfold assign, has_column. simpl. by rewrite bool_decide_true.
Qed.

Lemma elem_of_columns_assign c g df c' :
  c' ∈ columns (assign c g df) ↔ c' ∈ columns df ∨ c' = c.
Proof.
  unfold assign, has_column. simpl. case_bool_decide; set_solver.
Qed.

Lemma complete_spec cols r :
  complete cols r = true ↔ ∀ c, c ∈ cols → at_col c r ≠ NaN.
Proof.
  unfold complete. rewrite forallb_forall. split.
  - intros Hall c Hc%list_elem_of_In. specialize (Hall c Hc).
    intros Heq. rewrite Heq in Hall. discriminate.
  - intros Hall c Hc%list_elem_of_In. specialize (Hall c Hc).
    by destruct (at_col c r).
Qed.

(** *** [convert_columns] *)

Lemma convert_columns_fold l df :
  l ⊆ columns df →
  let df' := foldl (λ d col, if bool_decide (col ≠ "Datetime")
                             then to_numeric col d else d) df l in
  columns df' = columns df
  ∧ rows df' = (λ ir, (ir.1, convert_row l ir.2)) <$> rows df.
Proof.
  revert df. induction l as [|col l IH]; intros df Hl; simpl.
  - split; [done |]. unfold convert_row. simpl.
    induction (rows df) as [|[i r] rs IHrs]; [done |].
    simpl. by f_equal.
  - set (d := if bool_decide (col ≠ "Datetime") then to_numeric col df else df).
    assert (columns d = columns df) as Hcols.
    { unfold d. case_bool_decide; [| done].
      apply columns_assign_present. set_solver. }
    destruct (IH d) as [IHc IHr]; [rewrite Hcols; set_solver |].
    split; [congruence |].
    rewrite IHr. unfold d, convert_row. simpl.
    case_bool_decide; [| done].
    unfold to_numeric, assign. simpl.
    rewrite <-list_fmap_compose. done.
Qed.

Lemma columns_convert_columns df :
  columns (convert_columns df) = columns df.
Proof. by apply convert_columns_fold. Qed.

Lemma rows_convert_columns df :
  rows (convert_columns df)
  = (λ ir, (ir.1, convert_row (columns df) ir.2)) <$> rows df.
Proof. by apply convert_columns_fold. Qed.

Lemma at_col_convert_row c l r :
  at_col c (convert_row l r)
  = if decide (c ∈ l ∧ c ≠ "Datetime")
    then to_numeric_cell (at_col c r) else at_col c r.
Proof.
  revert r. induction l as [|col l IH]; intros r.
  - destruct (decide (c ∈ [] ∧ c ≠ "Datetime")) as [[Hc _]|_]; [| done].
    by apply elem_of_nil in Hc.
  - change (convert_row (col :: l) r)
      with (convert_row l (if bool_decide (col ≠ "Datetime")
                           then <[col := to_numeric_cell (at_col col r)]> r
                           else r)).
    rewrite IH. case_bool_decide as Hcol.
    + rewrite at_col_insert.
      destruct (decide (col = c)) as [->|Hne].
      * rewrite to_numeric_cell_idem.
        repeat case_decide; try done; set_solver.
      * repeat case_decide; try done; set_solver.
    + repeat case_decide; try done; set_solver.
Qed.

Lemma lookup_convert_row_is_Some c l r :
  is_Some (convert_row l r !! c) → is_Some (r !! c) ∨ c ∈ l.
Proof.
  revert r. induction l as [|col l IH]; intros r; [by left |].
  change (convert_row (col :: l) r)
    with (convert_row l (if bool_decide (col ≠ "Datetime")
                         then <[col := to_numeric_cell (at_col col r)]> r
                         else r)).
  intros [Hr | Hl]%IH; [| set_solver].
  case_bool_decide; [| by left].
  rewrite lookup_insert in Hr. case_decide; [set_solver | by left].
Qed.

End FrameLemmas.

(** ** What [read_csv] returns *)

Section ReadLemmas.
Context `{Library}.

Lemma lookup_read_row hdr na fields c :
  read_row hdr na fields !! c = read_cell na <$> record_dict hdr fields !! c.
Proof.
  unfold read_row, record_dict. revert fields.
  induction hdr as [|h hdr IH]; intros [|x fields]; simpl;
    try by rewrite lookup_empty.
  rewrite !lookup_insert. case_decide; [done | apply IH].
Qed.

Lemma record_dict_is_Some hdr fields c :
  is_Some (record_dict hdr fields !! c) → c ∈ hdr.
Proof.
  unfold record_dict. revert fields.
  induction hdr as [|h hdr IH]; intros [|x fields]; simpl;
    try (rewrite lookup_empty; by intros [? ?]).
  rewrite lookup_insert. case_decide; [set_solver |].
  intros Hc%IH. set_solver.
Qed.

Lemma read_cell_mark na :
  read_cell na "?" = NaN ∨ read_cell na "?" = Str "?".
Proof. unfold read_cell. case_bool_decide; [by left | by right]. Qed.

Lemma read_cell_mark_na na_values :
  "?" ∈ na_values → read_cell (default_na_values ++ na_values) "?" = NaN.
Proof.
  intros Hq. unfold read_cell. rewrite bool_decide_true; [done |].
  apply elem_of_app. by right.
Qed.

Lemma read_state_read_row hdr na_values fields :
  read_state hdr na_values fields
    (read_row hdr (default_na_values ++ na_values) fields).
Proof.
  split; [| split].
  - intros c. rewrite lookup_read_row, fmap_is_Some.
    apply record_dict_is_Some.
  - intros c. unfold at_col. rewrite lookup_read_row.
    destruct (record_dict hdr fields !! c) as [s|]; simpl; [| done].
    unfold read_cell. by case_bool_decide.
  - intros c Hq Hc. unfold at_col. rewrite lookup_read_row, Hc.
    change (read_cell (default_na_values ++ na_values) "?" = NaN
            ∨ (read_cell (default_na_values ++ na_values) "?" = Str "?"
               ∧ to_numeric1 "?" = None)).
    destruct Hq as [Hq | Hq].
    + left. by apply read_cell_mark_na.
    + destruct (read_cell_mark (default_na_values ++ na_values))
        as [-> | ->]; [by left | by right].
Qed.

Lemma read_state_to_numeric hdr na_values fields col r :
  col ∈ hdr → parses (at_col col r) = true →
  read_state hdr na_values fields r →
  read_state hdr na_values fields (<[col := to_numeric_cell (at_col col r)]> r).
Proof.
  intros Hcol Hparses (Hkeys & Hkind & Hq). split; [| split].
  - intros c. rewrite lookup_insert. case_decide; [by subst | apply Hkeys].
  - intros c. rewrite at_col_insert. case_decide; [| apply Hkind].
    destruct (to_numeric_cell_read_kind (at_col col r) (Hkind col))
      as [-> | [x ->]]; done.
  - intros c Hmark Hc. rewrite at_col_insert.
    case_decide as Heq; [subst c | by apply Hq].
    destruct (Hq col Hmark Hc) as [-> | [Hstr Hnone]]; [by left |].
    rewrite Hstr in Hparses. simpl in Hparses. rewrite Hnone in Hparses.
    apply bool_decide_eq_true in Hparses. by destruct Hparses.
Qed.

Lemma numeric_dtype_parses col df ir :
  numeric_dtype col df = true → ir ∈ rows df → parses (at_col col ir.2) = true.
Proof.
  unfold numeric_dtype, series. intros [_ Hall]%andb_true_iff Hir.
  rewrite forallb_forall in Hall. apply Hall.
  apply in_map_iff. exists ir. split; [done |]. by apply list_elem_of_In.
Qed.

Lemma reading_infer_dtype text sep na_values df col :
  col ∈ header sep text →
  reading text sep na_values df →
  reading text sep na_values (infer_dtype df col).
Proof.
  intros Hcol [Hcols Hrows]. unfold infer_dtype.
  destruct (numeric_dtype col df) eqn:Hnum; [| by split].
  split.
  - unfold to_numeric. rewrite columns_assign_present; [done |].
    by rewrite Hcols.
  - intros ir' (ir & Hir & ->)%elem_of_rows_assign.
    destruct (Hrows ir Hir) as (fields & Hrec & Hstate).
    exists fields. split; [done |]. simpl.
    apply read_state_to_numeric; [done | | done].
    by eapply numeric_dtype_parses.
Qed.

Lemma reading_foldl text sep na_values l df :
  l ⊆ header sep text →
  reading text sep na_values df →
  reading text sep na_values (foldl infer_dtype df l).
Proof.
  revert df. induction l as [|col l IH]; intros df Hl Hdf; [done |].
  simpl. apply IH; [set_solver |].
  apply reading_infer_dtype; [set_solver | done].
Qed.

Lemma read_csv_reading text sep na_values df :
  read_csv text sep na_values = Ok df → reading text sep na_values df.
Proof.
  unfold read_csv. case_bool_decide; [discriminate |].
  destruct (existsb _ _); [discriminate |].
  intros [= <-]. apply reading_foldl; [done |].
  split; [done |]. simpl.
  intros ir (i & fields & -> & Hi)%elem_of_lookup_imap.
  exists fields. split; [done |]. apply read_state_read_row.
Qed.

End ReadLemmas.

(** ** What the loading pipeline returns *)

Section LoadLemmas.
Context `{Library}.

Lemma handle_date_time_Ok df0 df1 :
  handle_date_time df0 = Ok df1 →
  ("Date" ∈ columns df0 ∧ "Time" ∈ columns df0
   ∧ df1 = drop ["Date"; "Time"]
             (assign_datetime "Datetime"
                (λ r, to_datetime DATETIME_FORMAT (date_time r)) df0))
  ∨ (¬ ("Date" ∈ columns df0 ∧ "Time" ∈ columns df0) ∧ df1 = df0).
Proof.
  unfold handle_date_time, has_column.
  destruct (bool_decide ("Date" ∈ columns df0)) eqn:Hd;
    [apply bool_decide_eq_true in Hd | apply bool_decide_eq_false in Hd];
    simpl.
  - destruct (bool_decide ("Time" ∈ columns df0)) eqn:Ht;
      [apply bool_decide_eq_true in Ht | apply bool_decide_eq_false in Ht].
    + destruct (_ || _); [discriminate |]. intros [= <-]. by left.
    + intros [= <-]. right. split; [| done]. by intros [_ ?].
  - intros [= <-]. right. split; [| done]. by intros [? _].
Qed.

Lemma preprocess_Ok df0 df :
  preprocess df0 = Ok df →
  ∃ df1, handle_date_time df0 = Ok df1 ∧ df = dropna (convert_columns df1).
Proof.
  unfold preprocess. intros (df1 & Hdf1 & Hdf)%bind_Ok.
  injection Hdf as <-. eauto.
Qed.

Lemma rows_combined df0 :
  rows (drop ["Date"; "Time"]
          (assign_datetime "Datetime"
             (λ r, to_datetime DATETIME_FORMAT (date_time r)) df0))
  = (λ ir, (ir.1, combine_row ir.2)) <$> rows df0.
Proof. unfold drop, assign_datetime, assign. simpl. by rewrite <-list_fmap_compose. Qed.

(** The two shapes of a loaded frame: with the Date and Time columns
    combined, or left as read. *)
Lemma preprocess_shape df0 df :
  preprocess df0 = Ok df →
  ∃ pre : gmap string cell → gmap string cell,
    rows df
    = filter (λ ir, complete (columns df) ir.2 = true)
        ((λ ir, (ir.1, convert_row (columns df) (pre ir.2))) <$> rows df0)
    ∧ (("Date" ∈ columns df0 ∧ "Time" ∈ columns df0
        ∧ pre = combine_row
        ∧ columns df
          = filter (λ c, c ∉ ["Date"; "Time"])
              (if has_column "Datetime" df0 then columns df0
               else (columns df0 ++ ["Datetime"])%list))
       ∨ (¬ ("Date" ∈ columns df0 ∧ "Time" ∈ columns df0)
          ∧ pre = id ∧ columns df = columns df0)).
Proof.
  intros (df1 & Hdf1 & ->)%preprocess_Ok.
  unfold dropna, select. simpl.
  rewrite columns_convert_columns, rows_convert_columns.
  apply handle_date_time_Ok in Hdf1 as [(Hd & Ht & ->) | (Hno & ->)].
  - exists combine_row. split.
    + rewrite rows_combined, <-list_fmap_compose. done.
    + left. done.
  - exists id. split; [done |]. right. done.
Qed.

Lemma at_col_combine_row c r :
  c ≠ "Date" → c ≠ "Time" → c ≠ "Datetime" →
  at_col c (combine_row r) = at_col c r.
Proof.
  intros Hd Ht Hdt. unfold combine_row. simpl.
  rewrite !at_col_delete, at_col_insert.
  repeat case_decide; congruence.
Qed.


Lemma lookup_combine_row c r :
  is_Some (combine_row r !! c) →
  c ≠ "Date" ∧ c ≠ "Time" ∧ (c = "Datetime" ∨ is_Some (r !! c)).
Proof.
  unfold combine_row. simpl.
  rewrite !lookup_delete, lookup_insert.
  repeat case_decide; subst; try (by intros [? ?]); intros Hc.
  - repeat split; try done. by left.
  - repeat split; try done. by right.
Qed.

Lemma feature_not_date f :
  f ∈ features → f ≠ "Date" ∧ f ≠ "Time" ∧ f ≠ "Datetime".
Proof.
  unfold features. rewrite !elem_of_cons, elem_of_nil.
  intros Hf. repeat destruct Hf as [-> | Hf]; done.
Qed.

(** Columns other than the three date columns are those of the frame read. *)
Lemma preprocess_other_column df0 df c :
  preprocess df0 = Ok df →
  c ≠ "Date" → c ≠ "Time" → c ≠ "Datetime" →
  c ∈ columns df ↔ c ∈ columns df0.
Proof.
  intros (pre & _ & [(_ & _ & _ & ->) | (_ & _ & ->)])%preprocess_shape
    Hd Ht Hdt; [| done].
  rewrite list_elem_of_filter. unfold has_column.
  case_bool_decide; set_solver.
Qed.

(** A row of the loaded frame comes from a row of the frame read, with the
    same label; it is complete, and outside the date columns its cells are
    the cells read, converted to numbers. *)
Lemma preprocess_row df0 df ir :
  preprocess df0 = Ok df → ir ∈ rows df →
  complete (columns df) ir.2 = true
  ∧ ∃ ir0, ir0 ∈ rows df0 ∧ ir0.1 = ir.1
      ∧ ∀ c, c ≠ "Date" → c ≠ "Time" → c ≠ "Datetime" → c ∈ columns df0 →
             at_col c ir.2 = to_numeric_cell (at_col c ir0.2).
Proof.
  intros Hpre Hir.
  destruct (preprocess_shape _ _ Hpre) as (pre & Hrows & Hshape).
  rewrite Hrows in Hir.
  apply list_elem_of_filter in Hir as [Hcomplete Hir].
  apply list_elem_of_fmap in Hir as (ir0 & -> & Hir0).
  split; [done |]. exists ir0. split; [done |]. split; [done |].
  intros c Hd Ht Hdt Hc. simpl.
  rewrite at_col_convert_row.
  rewrite decide_True
    by (split; [by apply (preprocess_other_column df0) | done]).
  destruct Hshape as [(_ & _ & -> & _) | (_ & -> & _)]; [| done].
  by rewrite at_col_combine_row.
Qed.

Lemma reading_labelled text sep na_values df :
  reading text sep na_values df → labelled df.
Proof.
  intros [Hcols Hrows] ir c Hir Hc.
  destruct (Hrows ir Hir) as (fields & _ & Hkeys & _).
  rewrite Hcols. by apply Hkeys.
Qed.

Lemma preprocess_labelled df0 df :
  labelled df0 → preprocess df0 = Ok df → labelled df.
Proof.
  intros Hlab Hpre ir c Hir Hc.
  destruct (preprocess_shape _ _ Hpre) as (pre & Hrows & Hshape).
  rewrite Hrows in Hir.
  apply list_elem_of_filter in Hir as [_ Hir].
  apply list_elem_of_fmap in Hir as (ir0 & -> & Hir0).
  simpl in Hc. apply lookup_convert_row_is_Some in Hc as [Hc | Hc]; [| done].
  destruct Hshape as [(_ & _ & -> & ->) | (_ & -> & ->)].
  - apply lookup_combine_row in Hc as (Hd & Ht & Hc).
    apply list_elem_of_filter. split; [set_solver |].
    unfold has_column. destruct Hc as [-> | Hc].
    + case_bool_decide; set_solver.
    + specialize (Hlab ir0 c Hir0 Hc). case_bool_decide; set_solver.
  - by apply (Hlab ir0).
Qed.

(** Where a request is read from, and that it went through both steps. *)
Lemma load_request_source fs file df :
  load_request fs file = Ok df →
  ∃ text sep na_values df0,
    request_source fs file = Some (text, sep, na_values)
    ∧ read_csv text sep na_values = Ok df0
    ∧ preprocess df0 = Ok df.
Proof.
  unfold load_request, request_source.
  destruct file as [f|].
  - unfold read_upload, decode.
    destruct (contents f) as [text|]; [simpl | discriminate].
    destruct (endswith (filename f) ".csv").
    + intros (df0 & ? & ?)%bind_Ok. by exists text, ","%char, [], df0.
    + destruct (endswith (filename f) ".txt"); [| discriminate].
      intros (df0 & ? & ?)%bind_Ok. by exists text, ";"%char, ["?"], df0.
  - unfold load_default_dataset.
    destruct (DEFAULT_DATA_FILE fs) as [text|]; [simpl | discriminate].
    destruct (read_csv text ";" ["?"]) as [df0|] eqn:Hread; [| discriminate].
    simpl. destruct (preprocess df0) as [df'|] eqn:Hpre; [| discriminate].
    intros [= <-]. by exists text, ";"%char, ["?"], df0.
Qed.

Lemma load_default_dataset_request fs df :
  load_default_dataset fs = Some df ↔ load_request fs None = Ok df.
Proof.
  unfold load_request. destruct (load_default_dataset fs); split; congruence.
Qed.

Lemma load_request_labelled fs file df :
  load_request fs file = Ok df → labelled df.
Proof.
  intros (text & sep & na & df0 & _ & Hread & Hpre)%load_request_source.
  eapply preprocess_labelled; [| done].
  eapply reading_labelled. by apply read_csv_reading.
Qed.

End LoadLemmas.

(** ** Statistics of a response *)

Section Statistics.
Context `{Library}.

(** C4.  In every successful response of /predict, /anomalies and
    /analyze-default-data, [anomaly_percentage] is [anomaly_count]
    divided by [total_records], times 100, when [total_records] is
    positive, and 0 when [total_records] is 0. *)
Theorem anomaly_percentage_formula st q r :
  (serve st q).1 = Ok r →
  (0 < total_records r →
   anomaly_percentage r
   = float_mul (int_truediv (anomaly_count r) (total_records r))
               (float_of_int 100))
  ∧ (total_records r = 0 → anomaly_percentage r = float_of_int 0).
Proof.
  intros [-> | adf df Hr]%serve_shaped.
  - split; [simpl; lia | reflexivity].
  - apply respond_Ok in Hr as (_ & _ & _ & ->).
    unfold percentage. split.
    + intros Hpos. apply Z.ltb_lt in Hpos. by rewrite Hpos.
    + by intros ->.
Qed.

Lemma head_length n df :
  length (rows (head n df)) = (n `min` length (rows df))%nat.
Proof. apply length_take. Qed.

(** C9.  In every successful response of the three routes,
    [anomaly_count] is the number of entries of [anomalies]; so when
    /anomalies finds more than 1000 flagged rows in its frame, the count is
    1000 and the percentage is computed from 1000, below the number of rows
    flagged. *)
Theorem anomaly_count_is_list_length st q r :
  (serve st q).1 = Ok r →
  anomaly_count r = Z.of_nat (length (anomalies r))
  ∧ ∀ sd ed ff m s df,
      q = GET_anomalies sd ed ff →
      model (ensure_models st) = Some m →
      scaler (ensure_models st) = Some s →
      anomalies_frame m s (files (ensure_models st)) sd ed ff = Ok (Some df) →
      (1000 < length (rows (select is_anomaly df)))%nat →
      length (anomalies r) = 1000%nat
      ∧ anomaly_count r = 1000
      ∧ anomaly_count r < Z.of_nat (length (rows (select is_anomaly df)))
      ∧ anomaly_percentage r = percentage 1000 (len df).
Proof.
  intros Hserve. split.
  - apply serve_shaped in Hserve as [-> | adf df Hr]; [reflexivity |].
    by apply respond_Ok in Hr as (_ & ? & _).
  - intros sd ed ff m s df -> Hm Hs Hframe Hmany.
    simpl in Hserve. unfold get_anomalies in Hserve.
    rewrite Hm, Hs in Hserve. simpl in Hserve.
    apply except_reraise_Ok in Hserve.
    rewrite Hframe in Hserve. simpl in Hserve.
    apply respond_Ok in Hserve as (Hlen & Hcount & Htotal & Hpct).
    rewrite head_length in Hlen. unfold max_anomalies in Hlen.
    assert (length (anomalies r) = 1000%nat) as Hk by lia.
    rewrite Hk in Hcount.
    rewrite Hpct, Htotal, Hcount. repeat split; try done; lia.
Qed.

(** Where the cap is.  /anomalies answers with at most 1000 entries: the
    first 1000 flagged rows of its frame.  /predict and
    /analyze-default-data apply no cap: their list has one entry for every
    flagged row of the frame, whatever their number. *)
Lemma cap_only_in_get_anomalies st q r :
  (serve st q).1 = Ok r →
  match q with
  | GET_anomalies sd ed ff =>
      (length (anomalies r) ≤ 1000)%nat
  | POST_predict file =>
      ∃ m s df,
        model st = Some m ∧ scaler st = Some s
        ∧ predict_frame m s (files st) file = Ok df
        ∧ length (anomalies r) = length (rows (select is_anomaly df))
  | GET_analyze_default_data n =>
      ∃ m s df,
        model (ensure_models st) = Some m
        ∧ scaler (ensure_models st) = Some s
        ∧ analyze_frame m s (files (ensure_models st)) n = Ok df
        ∧ length (anomalies r) = length (rows (select is_anomaly df))
  end.
Proof.
  destruct q as [file | sd ed ff | n]; simpl.
  - unfold predict_anomalies.
    destruct (model st) as [m|], (scaler st) as [s|]; try discriminate.
    intros Hr%except_Exception_Ok.
    apply bind_Ok in Hr as (df & Hdf & Hr).
    apply respond_Ok in Hr as (Hlen & _). by exists m, s, df.
  - unfold get_anomalies.
    destruct (model (ensure_models st)), (scaler (ensure_models st));
      try discriminate.
    simpl. intros Hr%except_reraise_Ok.
    apply bind_Ok in Hr as ([df|] & _ & Hr).
    + apply respond_Ok in Hr as (Hlen & _).
      rewrite Hlen, head_length. unfold max_anomalies. lia.
    + injection Hr as <-. simpl. lia.
  - unfold analyze_default_dataset.
    destruct (model (ensure_models st)) as [m|],
             (scaler (ensure_models st)) as [s|]; try discriminate.
    simpl. intros Hr%except_Exception_Ok.
    apply bind_Ok in Hr as (df & Hdf & Hr).
    apply respond_Ok in Hr as (Hlen & _). by exists m, s, df.
Qed.

End Statistics.

(** ** Errors of /predict *)

Section PredictErrors.
Context `{Library}.

(** C5.  A POST to /predict while the global [model] or the global
    [scaler] is [None] is answered with a 500 error. *)
Theorem predict_before_training st file :
  model st = None ∨ scaler st = None →
  predict_anomalies st file
  = Raise (HTTPException 500
             "Model not trained yet. Please upload a training dataset first.").
Proof.
  unfold predict_anomalies. intros [-> | ->]; [done |].
  by destruct (model st).
Qed.

(** A service started without persisted artifacts is in that state. *)
Lemma predict_after_startup fs file :
  DEFAULT_MODEL_FILE fs = None → MODEL_PATH_model fs = None →
  predict_anomalies (startup fs) file
  = Raise (HTTPException 500
             "Model not trained yet. Please upload a training dataset first.").
Proof.
  intros Hprimary Hfallback. unfold predict_anomalies, startup, load_model.
  by rewrite Hprimary, Hfallback.
Qed.

(** Whatever goes wrong in /predict, the status is 500: the handler's
    [except Exception] also catches its own 400 errors. *)
Lemma predict_errors_are_500 st file e :
  predict_anomalies st file = Raise e → ∃ d, e = HTTPException 500 d.
Proof.
  unfold predict_anomalies.
  destruct (model st), (scaler st);
    try (intros [= <-]; eauto).
  apply except_Exception_Raise.
Qed.

(** The same holds for /train: every error it answers has status 500. *)
Lemma train_errors_are_500 st file e :
  (train_model st file).1 = Raise e → ∃ d, e = HTTPException 500 d.
Proof.
  unfold train_model, train_error.
  destruct (training_matrix _ _); simpl; [| intros [= <-]; eauto].
  destruct (scale_for_training _ _) as [s [X|e']]; simpl;
    [| intros [= <-]; eauto].
  destruct (IsolationForest_fit _ _ _ _); simpl; [discriminate |].
  intros [= <-]; eauto.
Qed.

End PredictErrors.

(** ** The feature filter of /anomalies *)

Section FeatureFilter.
Context `{Library}.

(** C10.  A [feature_filter] that is none of the 7 feature names is
    ignored by /anomalies: the answer, and the state left behind, are those
    of the same request without [feature_filter]. *)
Theorem unknown_feature_filter_ignored st start_date end_date f :
  f ∉ features →
  get_anomalies st start_date end_date (Some f)
  = get_anomalies st start_date end_date None.
Proof.
  intros Hf. unfold get_anomalies.
  destruct (model (ensure_models st)) as [m|]; [| reflexivity].
  destruct (scaler (ensure_models st)) as [s|]; [| reflexivity].
  do 2 f_equal. unfold anomalies_frame.
  destruct (load_default_dataset _) as [df|]; [simpl | reflexivity].
  destruct (date_filter "start_date" _ _ _) as [df1|]; [simpl | reflexivity].
  destruct (date_filter "end_date" _ _ _) as [df2|]; [simpl | reflexivity].
  destruct (len df2 =? 0); [reflexivity |].
  destruct (score m s df2) as [df3|]; [simpl | reflexivity].
  by rewrite (bool_decide_false _ Hf), andb_false_r.
Qed.

End FeatureFilter.

(** ** The loader *)

Section LoaderTheorems.
Context `{Library}.

(** C6.  Whatever a request is loaded from (an uploaded .csv, an uploaded
    semicolon-delimited .txt, the default dataset), a record with the
    field "?" under a feature label has no row in the loaded frame, and in
    every row of the loaded frame every feature column holds a float.  For
    the .txt files "?" is a missing-value marker of [read_csv]; for the
    .csv files it is [to_numeric] that turns it into NaN. *)
Theorem question_mark_rows_dropped fs file df text sep na_values :
  load_request fs file = Ok df →
  request_source fs file = Some (text, sep, na_values) →
  "?" ∈ na_values ∨ to_numeric1 "?" = None →
  (∀ i fields f,
     records sep text !! i = Some fields →
     f ∈ features →
     record_dict (header sep text) fields !! f = Some "?" →
     i ∉ (rows df).*1)
  ∧ (∀ ir f,
       ir ∈ rows df → f ∈ features → f ∈ columns df →
       ∃ x, at_col f ir.2 = Num x).
Proof.
  intros (text' & sep' & na' & df0 & Hsrc & Hread & Hpre)%load_request_source
    Hsrc' Hmark.
  rewrite Hsrc in Hsrc'. injection Hsrc' as -> -> ->.
  destruct (read_csv_reading _ _ _ _ Hread) as [Hcols Hrows].
  split.
  - intros i fields f Hrec Hf Hfield Hi.
    apply list_elem_of_fmap in Hi as (ir & -> & Hir).
    destruct (feature_not_date f Hf) as (Hd & Ht & Hdt).
    assert (f ∈ columns df0) as Hcol0.
    { rewrite Hcols. apply (record_dict_is_Some _ fields). by rewrite Hfield. }
    destruct (preprocess_row _ _ _ Hpre Hir)
      as (Hcomplete & ir0 & Hir0 & Hlabel & Hcell).
    destruct (Hrows ir0 Hir0) as (fields' & Hrec' & _ & _ & Hq).
    rewrite Hlabel, Hrec in Hrec'. injection Hrec' as <-.
    rewrite complete_spec in Hcomplete.
    apply (Hcomplete f); [by apply (preprocess_other_column df0) |].
    rewrite (Hcell f Hd Ht Hdt Hcol0).
    destruct (Hq f Hmark Hfield) as [-> | [-> Hnone]]; [done |].
    simpl. by rewrite Hnone.
  - intros ir f Hir Hf Hcol.
    destruct (feature_not_date f Hf) as (Hd & Ht & Hdt).
    assert (f ∈ columns df0) as Hcol0
      by by apply (preprocess_other_column df0 df).
    destruct (preprocess_row _ _ _ Hpre Hir)
      as (Hcomplete & ir0 & Hir0 & _ & Hcell).
    destruct (Hrows ir0 Hir0) as (fields & _ & _ & Hkind & _).
    rewrite complete_spec in Hcomplete. specialize (Hcomplete f Hcol).
    rewrite (Hcell f Hd Ht Hdt Hcol0) in Hcomplete |- *.
    destruct (to_numeric_cell_read_kind _ (Hkind f)) as [Hnan | [x Hx]];
      [done | eauto].
Qed.


End LoaderTheorems.

(** ** The date filter of /anomalies *)

Section DateFilter.
Context `{Library}.

Lemma filter_none {A} (P : A → Prop) `{∀ x, Decision (P x)} (l : list A) :
  (∀ x, x ∈ l → ¬ P x) → filter P l = [].
Proof.
  induction l as [|x l IH]; intros Hl; [done |].
  rewrite filter_cons, decide_False by (apply Hl; set_solver).
  apply IH. intros y Hy. apply Hl. set_solver.
Qed.

Lemma files_ensure_models st : files (ensure_models st) = files st.
Proof. unfold ensure_models. by destruct (model st), (scaler st). Qed.

Lemma given_Some text : text ≠ "" → given (Some text) = true.
Proof.
  intros Hne. simpl. destruct (String.eqb text "") eqn:Heq; [| done].
  by apply String.eqb_eq in Heq.
Qed.

(** Against a tz-naive bound the filter is the comparison cell by cell. *)
Lemma filter_datetime_naive op bound df :
  tz_aware bound = false →
  filter_datetime op bound df
  = if forallb comparable (series "Datetime" df) then
      Ok (select (λ r, match at_col "Datetime" r with
                       | Stamp t => op t (seconds bound)
                       | _ => false
                       end) df)
    else Raise (Exception "TypeError"
                  "'>=' not supported between instances of 'str' and 'Timestamp'").
Proof. unfold filter_datetime. by intros ->. Qed.

(** Against a tz-aware bound a column of dtype datetime64[ns] raises. *)
Lemma filter_datetime_aware op bound df :
  tz_aware bound = true → "Datetime" ∈ datetimes df →
  filter_datetime op bound df
  = Raise (Exception "TypeError"
             "Invalid comparison between dtype=datetime64[ns] and Timestamp").
Proof.
  unfold filter_datetime. intros -> Hdtype.
  by rewrite bool_decide_true.
Qed.

Lemma filter_datetime_rows op bound df df' :
  filter_datetime op bound df = Ok df' →
  rows df'
  = filter (λ ir, match at_col "Datetime" ir.2 with
                  | Stamp t => op t (seconds bound)
                  | _ => false
                  end = true) (rows df).
Proof.
  unfold filter_datetime.
  destruct (_ && _); [discriminate |].
  destruct (forallb _ _); [| discriminate].
  by intros [= <-].
Qed.

Lemma filter_datetime_empty op bound df :
  tz_aware bound = false → rows df = [] →
  ∃ df', filter_datetime op bound df = Ok df' ∧ rows df' = [].
Proof.
  intros Hnaive Hrows. rewrite (filter_datetime_naive _ _ _ Hnaive).
  unfold series, select. rewrite Hrows. simpl.
  eexists. split; [done |]. simpl. done.
Qed.

(** On an empty frame a date block answers an empty frame or its 400. *)
Lemma date_filter_empty name op date df df' :
  rows df = [] → date_filter name op date df = Ok df' → rows df' = [].
Proof.
  intros Hrows. unfold date_filter.
  destruct date as [text|]; [| by intros [= <-]].
  destruct (given _ && _); [| by intros [= <-]].
  destruct (parse_datetime text) as [bound|]; [simpl | discriminate].
  destruct (filter_datetime op bound df) as [df''|] eqn:Hfilter;
    [| discriminate].
  intros [= <-]. apply filter_datetime_rows in Hfilter.
  by rewrite Hfilter, Hrows.
Qed.

Lemma date_filter_empty_Ok name op date df :
  rows df = [] →
  (∀ text, date = Some text →
           text = "" ∨ ∃ bound, parse_datetime text = Some bound
                                ∧ tz_aware bound = false) →
  ∃ df', date_filter name op date df = Ok df' ∧ rows df' = [].
Proof.
  intros Hrows Hdate. unfold date_filter.
  destruct date as [text|]; [| by exists df].
  destruct (Hdate text eq_refl) as [-> | (bound & Hbound & Hnaive)];
    [by exists df |].
  destruct (given _ && _); [| by exists df].
  rewrite Hbound. simpl.
  destruct (filter_datetime_empty op bound df Hnaive Hrows)
    as (df' & -> & Hempty).
  by exists df'.
Qed.

(** A start date after every timestamp leaves no row, when the block
    answers a frame at all. *)
Lemma date_filter_start_after_rows text start df df' :
  labelled df →
  text ≠ "" → parse_datetime text = Some start →
  (∀ ir, ir ∈ rows df →
         ∃ t, at_col "Datetime" ir.2 = Stamp t ∧ t < seconds start) →
  date_filter "start_date" Z.geb (Some text) df = Ok df' →
  rows df' = [].
Proof.
  intros Hlab Htext Hstart Hlate. unfold date_filter.
  rewrite (given_Some _ Htext), Hstart. simpl.
  unfold has_column. case_bool_decide as Hcol.
  - destruct (filter_datetime Z.geb start df) as [df''|] eqn:Hfilter;
      [| discriminate].
    intros [= <-]. rewrite (filter_datetime_rows _ _ _ _ Hfilter).
    apply filter_none. intros ir Hir.
    destruct (Hlate ir Hir) as (t & -> & Hlt).
    intros Hge%Z.geb_le. lia.
  - intros [= <-].
    destruct (rows df) as [|ir rs] eqn:Hrows; [done |].
    exfalso. apply Hcol.
    assert (ir ∈ rows df) as Hir by (rewrite Hrows; set_solver).
    destruct (Hlate ir) as (t & Ht & _); [set_solver |].
    apply (Hlab ir "Datetime" Hir).
    unfold at_col in Ht. destruct (ir.2 !! "Datetime"); [done | discriminate].
Qed.

(** A tz-naive one is answered with a frame. *)
Lemma date_filter_start_after text start df :
  labelled df →
  text ≠ "" → parse_datetime text = Some start → tz_aware start = false →
  (∀ ir, ir ∈ rows df →
         ∃ t, at_col "Datetime" ir.2 = Stamp t ∧ t < seconds start) →
  ∃ df', date_filter "start_date" Z.geb (Some text) df = Ok df'
         ∧ rows df' = [].
Proof.
  intros Hlab Htext Hstart Hnaive Hlate.
  assert (∃ df', date_filter "start_date" Z.geb (Some text) df = Ok df')
    as [df' Hdf'].
  { unfold date_filter. rewrite (given_Some _ Htext), Hstart. simpl.
    destruct (has_column "Datetime" df); [| by exists df].
    rewrite (filter_datetime_naive _ _ _ Hnaive).
    assert (forallb comparable (series "Datetime" df) = true) as ->.
    { apply forallb_forall. intros c (ir & <- & Hir)%in_map_iff.
      apply list_elem_of_In in Hir.
      by destruct (Hlate ir Hir) as (t & -> & _). }
    eauto. }
  exists df'. split; [done |].
  by eapply date_filter_start_after_rows.
Qed.

(** A tz-aware date is answered 400 when the Datetime column has the
    dtype datetime64[ns], whatever the instant it denotes. *)
Lemma date_filter_aware name op text bound df :
  text ≠ "" → parse_datetime text = Some bound → tz_aware bound = true →
  "Datetime" ∈ columns df → "Datetime" ∈ datetimes df →
  date_filter name op (Some text) df
  = Raise (HTTPException 400
      ("Invalid " +:+ name +:+ " format: "
       +:+ "Invalid comparison between dtype=datetime64[ns] and Timestamp")).
Proof.
  intros Htext Hbound Haware Hcol Hdtype. unfold date_filter.
  rewrite (given_Some _ Htext), Hbound. unfold has_column.
  rewrite bool_decide_true by done. simpl.
  by rewrite (filter_datetime_aware _ _ _ Haware Hdtype).
Qed.

Lemma result_bind_Ok {A B} (a : A) (k : A → result B) : Ok a ≫= k = k a.
Proof. reflexivity. Qed.

(** The hypothesis on the timestamps, as a test that runs. *)
Lemma all_before_spec start df :
  forallb (λ ir, match at_col "Datetime" ir.2 with
                 | Stamp t => t <? start
                 | _ => false
                 end) (rows df) = true →
  ∀ ir, ir ∈ rows df → ∃ t, at_col "Datetime" ir.2 = Stamp t ∧ t < start.
Proof.
  intros Hall ir Hir%list_elem_of_In.
  rewrite forallb_forall in Hall. specialize (Hall ir Hir).
  destruct (at_col "Datetime" ir.2) as [| | | |t]; try discriminate.
  exists t. split; [done |]. by apply Z.ltb_lt.
Qed.

(** *** The dtype of the Datetime column of a loaded frame *)

Lemma datetimes_foldl_infer df l :
  datetimes df = [] → datetimes (foldl infer_dtype df l) = [].
Proof.
  revert df. induction l as [|col l IH]; intros df Hdf; [done |].
  simpl. apply IH. unfold infer_dtype.
  destruct (numeric_dtype col df); [| done].
  unfold to_numeric, assign. simpl. by rewrite Hdf.
Qed.

Lemma datetimes_read_csv text sep na_values df :
  read_csv text sep na_values = Ok df → datetimes df = [].
Proof.
  unfold read_csv. case_bool_decide; [discriminate |].
  destruct (existsb _ _); [discriminate |].
  intros [= <-]. by apply datetimes_foldl_infer.
Qed.

Lemma datetimes_convert_fold dts df l :
  (dts = [] ∨ dts = ["Datetime"]) → datetimes df = dts →
  datetimes
    (foldl (λ d col, if bool_decide (col ≠ "Datetime")
                     then to_numeric col d else d) df l) = dts.
Proof.
  intros Hdts. revert df. induction l as [|col l IH]; intros df Hdf; [done |].
  simpl. apply IH. case_bool_decide as Hcol; [| done].
  unfold to_numeric, assign. simpl. rewrite Hdf.
  destruct Hdts as [-> | ->]; [done |].
  rewrite filter_cons, decide_True by done. done.
Qed.

(** The Datetime column of a frame loaded from text has the dtype
    datetime64[ns] exactly when [pd.to_datetime] made it, from a Date and a
    Time column; it is then a column of the frame. *)
Lemma preprocess_datetimes df0 df :
  datetimes df0 = [] → preprocess df0 = Ok df →
  ("Date" ∈ columns df0 ∧ "Time" ∈ columns df0
   ∧ datetimes df = ["Datetime"] ∧ "Datetime" ∈ columns df)
  ∨ (¬ ("Date" ∈ columns df0 ∧ "Time" ∈ columns df0) ∧ datetimes df = []).
Proof.
  intros Hdf0 Hpre.
  destruct (preprocess_shape _ _ Hpre) as (pre & _ & Hshape).
  apply preprocess_Ok in Hpre as (df1 & Hdf1 & ->).
  apply handle_date_time_Ok in Hdf1 as [(Hd & Ht & ->) | (Hno & ->)].
  - left. do 2 (split; [done |]). split.
    + unfold dropna, select, convert_columns. simpl.
      apply datetimes_convert_fold; [by right |].
      unfold drop, assign_datetime. simpl. rewrite Hdf0.
      vm_compute. reflexivity.
    + destruct Hshape as [(_ & _ & _ & Hcols) | (Hno & _)];
        [| by destruct Hno].
      rewrite Hcols. apply list_elem_of_filter. split.
      * intros Hin. apply list_elem_of_In in Hin. simpl in Hin.
        intuition discriminate.
      * destruct (has_column "Datetime" df0) eqn:Hhas; [| set_solver].
        by apply bool_decide_eq_true in Hhas.
  - right. split; [done |].
    unfold dropna, select, convert_columns. simpl.
    by apply datetimes_convert_fold; [left |].
Qed.

Lemma loaded_datetime_column fs df :
  load_default_dataset fs = Some df →
  "Datetime" ∈ datetimes df → "Datetime" ∈ columns df.
Proof.
  unfold load_default_dataset.
  destruct (DEFAULT_DATA_FILE fs) as [text|]; [| discriminate].
  destruct (read_csv text ";" ["?"]) as [df0|] eqn:Hread; [| discriminate].
  rewrite result_bind_Ok.
  destruct (preprocess df0) as [df'|] eqn:Hpre; [| discriminate].
  intros [= <-] Hdtype.
  destruct (preprocess_datetimes df0 df' (datetimes_read_csv _ _ _ _ Hread)
              Hpre) as [(_ & _ & _ & Hcol) | (_ & Hnone)]; [done |].
  rewrite Hnone in Hdtype. by apply elem_of_nil in Hdtype.
Qed.

(** With such a start date the handler takes its early return, or answers
    the 400 of a date block. *)
Lemma anomalies_frame_start_after fs text end_date feature_filter start df :
  load_default_dataset fs = Some df →
  text ≠ "" → parse_datetime text = Some start →
  (∀ ir, ir ∈ rows df →
         ∃ t, at_col "Datetime" ir.2 = Stamp t ∧ t < seconds start) →
  (∀ m s frame,
     anomalies_frame m s fs (Some text) end_date feature_filter = Ok frame →
     frame = None)
  ∧ (tz_aware start = false →
     ∀ m s,
       (∀ e, end_date = Some e →
             e = "" ∨ ∃ bound, parse_datetime e = Some bound
                               ∧ tz_aware bound = false) →
       anomalies_frame m s fs (Some text) end_date feature_filter = Ok None)
  ∧ (tz_aware start = true → "Datetime" ∈ datetimes df →
     ∀ m s,
       anomalies_frame m s fs (Some text) end_date feature_filter
       = Raise (HTTPException 400
           ("Invalid start_date format: "
            +:+ "Invalid comparison between dtype=datetime64[ns] and Timestamp"))).
Proof.
  intros Hload Htext Hstart Hlate.
  assert (labelled df) as Hlab.
  { apply (load_request_labelled fs None).
    by apply load_default_dataset_request. }
  unfold anomalies_frame. rewrite Hload.
  change (match Some df with
          | Some df => Ok df
          | None => Raise (HTTPException 404 "Default dataset not found")
          end) with (Ok df).
  split; [| split].
  - intros m s frame. rewrite result_bind_Ok. intros Hframe.
    apply bind_Ok in Hframe as (df1 & Hdf1 & Hframe).
    apply (date_filter_start_after_rows text start df df1 Hlab Htext Hstart
             Hlate) in Hdf1.
    apply bind_Ok in Hframe as (df2 & Hdf2 & Hframe).
    apply date_filter_empty in Hdf2; [| done].
    unfold len in Hframe. rewrite Hdf2 in Hframe. by injection Hframe as <-.
  - intros Hnaive m s Hend.
    destruct (date_filter_start_after text start df Hlab Htext Hstart Hnaive
                Hlate) as (df1 & Hdf1 & Hempty1).
    rewrite result_bind_Ok, Hdf1, result_bind_Ok.
    destruct (date_filter_empty_Ok "end_date" Z.leb end_date df1 Hempty1 Hend)
      as (df2 & -> & Hempty2).
    rewrite result_bind_Ok. unfold len. by rewrite Hempty2.
  - intros Haware Hdtype m s. rewrite result_bind_Ok.
    rewrite (date_filter_aware "start_date" Z.geb text start df Htext Hstart
               Haware (loaded_datetime_column _ _ Hload Hdtype) Hdtype).
    done.
Qed.

(** C8, as the code has it.  A GET of /anomalies whose [start_date]
    parses to a time after the timestamp of every record of the loaded
    default dataset: every successful answer has [total_records = 0], no
    anomalies, [anomaly_count = 0] and [anomaly_percentage = 0].  When the
    parsed [start_date] is tz-naive, the answer is successful as soon as a
    model and a scaler are in memory or on disk and [end_date] is absent,
    empty or parses to a tz-naive time.  When the parsed [start_date] is
    tz-aware and the Datetime column has the dtype datetime64[ns], the
    comparison raises and the answer is the 400 of the date block, however
    late the date is. *)
Theorem start_date_after_all_records st text end_date feature_filter start df :
  load_default_dataset (files st) = Some df →
  text ≠ "" → parse_datetime text = Some start →
  (∀ ir, ir ∈ rows df →
         ∃ t, at_col "Datetime" ir.2 = Stamp t ∧ t < seconds start) →
  (∀ r, (get_anomalies st (Some text) end_date feature_filter).1 = Ok r →
        total_records r = 0 ∧ anomalies r = [] ∧ anomaly_count r = 0
        ∧ anomaly_percentage r = float_of_int 0)
  ∧ (tz_aware start = false →
     is_Some (model (ensure_models st)) →
     is_Some (scaler (ensure_models st)) →
     (∀ e, end_date = Some e →
           e = "" ∨ ∃ bound, parse_datetime e = Some bound
                             ∧ tz_aware bound = false) →
     (get_anomalies st (Some text) end_date feature_filter).1
     = Ok empty_response)
  ∧ (tz_aware start = true → "Datetime" ∈ datetimes df →
     is_Some (model (ensure_models st)) →
     is_Some (scaler (ensure_models st)) →
     ∃ detail,
       (get_anomalies st (Some text) end_date feature_filter).1
       = Raise (HTTPException 400
                  ("Invalid start_date format: " +:+ detail))).
Proof.
  intros Hload Htext Hstart Hlate. unfold get_anomalies.
  rewrite files_ensure_models.
  destruct (anomalies_frame_start_after (files st) text end_date
              feature_filter start df Hload Htext Hstart Hlate)
    as (Hnone & Hsome & Hraise).
  split; [| split].
  - intros r.
    destruct (model (ensure_models st)) as [m|],
             (scaler (ensure_models st)) as [s|]; try discriminate.
    simpl. intros Hr%except_reraise_Ok.
    apply bind_Ok in Hr as (frame & Hframe & Hr).
    apply Hnone in Hframe as ->. by injection Hr as <-.
  - intros Hnaive [m ->] [s ->] Hend. simpl.
    by rewrite (Hsome Hnaive m s Hend).
  - intros Haware Hdtype [m ->] [s ->].
    exists "Invalid comparison between dtype=datetime64[ns] and Timestamp".
    cbn [fst]. by rewrite (Hraise Haware Hdtype m s).
Qed.

End DateFilter.

(** ** The scaler of a training *)

Section TrainingScaler.
Context `{Library}.

Lemma fit_transform_fitted X s :
  StandardScaler_fit X = Ok s → (fit_transform X).1 = Fitted s.
Proof. unfold fit_transform. by intros ->. Qed.

(** The global [scaler] after a training that reached the inner [try]. *)
Lemma train_model_scaler st file X :
  training_matrix (files st) file = Ok X →
  scaler (train_model st file).2 = Some (scale_for_training (files st) X).1.
Proof.
  intros HX. unfold train_model. rewrite HX.
  destruct (scale_for_training (files st) X) as [s [X_scaled|e]]; [| done].
  by destruct (IsolationForest_fit _ _ _ _).
Qed.

(** Without a scaler file that loads and transforms, the inner [try] ends
    with [fit_transform]. *)
Lemma scale_for_training_refit fs X :
  DEFAULT_SCALER_FILE fs = None
  ∨ DEFAULT_SCALER_FILE fs = Some Corrupt
  ∨ (∃ s e, DEFAULT_SCALER_FILE fs = Some (Pickled s)
            ∧ estimator_call "StandardScaler" s (λ s, transform s X)
              = Raise e) →
  scale_for_training fs X = fit_transform X.
Proof.
  unfold scale_for_training.
  intros [-> | [-> | (s & e & -> & Hraise)]]; simpl.
  - by destruct (fit_transform X) as [s [X_scaled|e]].
  - done.
  - by rewrite Hraise.
Qed.

(** What follows the inner [try] uses its scaler and its scaled features
    only. *)
Lemma train_model_scaled st file X s X_scaled :
  training_matrix (files st) file = Ok X →
  scale_for_training (files st) X = (s, Ok X_scaled) →
  trains_with st file s X_scaled.
Proof.
  intros HX Hscale. unfold trains_with, train_model. rewrite HX, Hscale.
  split; [by destruct (IsolationForest_fit _ _ _ _) |].
  split; by intros ? ->.
Qed.

(** C3, as the code has it.  In a training that reaches the scaling
    step: when the primary scaler file holds a scaler that loads and
    transforms the features without an error, that scaler is reused to
    transform the features: it becomes the global one, nothing is fit but
    the forest, and the forest is fit on the features as that scaler
    transforms them; in every other case (no file, a file that does not
    deserialize, a transform that raises) a new standardizer is fit on the
    training feature matrix, and the forest is fit on the features as the
    new standardizer transforms them. *)
Theorem training_scaler_choice st file X :
  training_matrix (files st) file = Ok X →
  (∀ s X_scaled,
     DEFAULT_SCALER_FILE (files st) = Some (Pickled s) →
     estimator_call "StandardScaler" s (λ s, transform s X) = Ok X_scaled →
     scaler (train_model st file).2 = Some s
     ∧ trains_with st file s X_scaled)
  ∧ ((DEFAULT_SCALER_FILE (files st) = None
      ∨ DEFAULT_SCALER_FILE (files st) = Some Corrupt
      ∨ ∃ s e, DEFAULT_SCALER_FILE (files st) = Some (Pickled s)
               ∧ estimator_call "StandardScaler" s (λ s, transform s X)
                 = Raise e) →
     scaler (train_model st file).2 = Some (fit_transform X).1
     ∧ (∀ s', StandardScaler_fit X = Ok s' →
              scaler (train_model st file).2 = Some (Fitted s'))
     ∧ ∀ s' X_scaled,
         StandardScaler_fit X = Ok s' → transform s' X = Ok X_scaled →
         trains_with st file (Fitted s') X_scaled).
Proof.
  intros HX. split.
  - intros s X_scaled Hfile Hscaled.
    assert (trains_with st file s X_scaled) as Hwith.
    { apply (train_model_scaled st file X); [done |].
      unfold scale_for_training. rewrite Hfile. simpl. by rewrite Hscaled. }
    split; [apply Hwith | done].
  - intros Hother. rewrite (train_model_scaler _ _ _ HX).
    rewrite (scale_for_training_refit _ _ Hother).
    split; [done |]. split.
    + intros s' Hfit. by rewrite (fit_transform_fitted X s').
    + intros s' X_scaled Hfit Hscaled.
      apply (train_model_scaled st file X); [done |].
      rewrite (scale_for_training_refit _ _ Hother).
      unfold fit_transform. by rewrite Hfit, Hscaled.
Qed.

End TrainingScaler.

(** ** The model store *)

Section ModelStore.
Context `{Library}.

(** [load_model] answers the primary pair when both primary files exist
    and deserialize, the pair of the models directory only when a primary
    file does not exist, and nothing otherwise: primary files that exist
    but do not deserialize hide a good pair in the models directory, and
    the two locations are never mixed. *)
Theorem load_model_spec fs m s :
  load_model fs = (Some m, Some s) ↔
  (DEFAULT_MODEL_FILE fs = Some (Pickled m)
   ∧ DEFAULT_SCALER_FILE fs = Some (Pickled s))
  ∨ ((DEFAULT_MODEL_FILE fs = None ∨ DEFAULT_SCALER_FILE fs = None)
     ∧ MODEL_PATH_model fs = Some (Pickled m)
     ∧ MODEL_PATH_scaler fs = Some (Pickled s)).
Proof.
  unfold load_model.
  destruct (DEFAULT_MODEL_FILE fs) as [[m1|]|],
           (DEFAULT_SCALER_FILE fs) as [[s1|]|],
           (MODEL_PATH_model fs) as [[m2|]|],
           (MODEL_PATH_scaler fs) as [[s2|]|]; simpl; naive_solver.
Qed.

(** Both artifacts or none. *)
Theorem load_model_pair fs :
  load_model fs = (None, None) ∨ ∃ m s, load_model fs = (Some m, Some s).
Proof.
  unfold load_model.
  destruct (os_path_exists _ && os_path_exists _).
  - destruct (joblib_load (DEFAULT_MODEL_FILE fs)); [| by left].
    destruct (joblib_load (DEFAULT_SCALER_FILE fs)); [| by left].
    right. simpl. eauto.
  - destruct (os_path_exists _ && os_path_exists _); [| by left].
    destruct (joblib_load (MODEL_PATH_model fs)); [| by left].
    destruct (joblib_load (MODEL_PATH_scaler fs)); [| by left].
    right. simpl. eauto.
Qed.

Lemma train_model_Ok st file msg :
  (train_model st file).1 = Ok msg →
  ∃ X s X_scaled m,
    training_matrix (files st) file = Ok X
    ∧ scale_for_training (files st) X = (s, Ok X_scaled)
    ∧ IsolationForest_fit 100 (1 # 100) 42 X_scaled = Ok m
    ∧ train_model st file
      = (Ok "Model trained and saved successfully",
         {| model := Some (Fitted m); scaler := Some s;
            files := save (Fitted m) s (files st) |}).
Proof.
  unfold train_model.
  destruct (training_matrix _ _) as [X|]; [| discriminate].
  destruct (scale_for_training _ _) as [s [X_scaled|]] eqn:Hs; [| discriminate].
  destruct (IsolationForest_fit _ _ _ _) as [m|] eqn:Hm; [| discriminate].
  intros _. by exists X, s, X_scaled, m.
Qed.

(** After a successful training, what [load_model] reads back from the
    disk is what the globals hold, in memory a fitted forest; a restart
    resumes with the same pair.  The default dataset is left as it was. *)
Theorem train_then_load st file msg :
  (train_model st file).1 = Ok msg →
  let st' := (train_model st file).2 in
  load_model (files st') = (model st', scaler st')
  ∧ startup (files st') = st'
  ∧ (∃ m, model st' = Some (Fitted m))
  ∧ MODEL_PATH_model (files st') = DEFAULT_MODEL_FILE (files st')
  ∧ MODEL_PATH_scaler (files st') = DEFAULT_SCALER_FILE (files st')
  ∧ DEFAULT_DATA_FILE (files st') = DEFAULT_DATA_FILE (files st).
Proof.
  intros (X & s & X_scaled & m & _ & _ & _ & ->)%train_model_Ok. simpl.
  repeat split; eauto.
Qed.

(** A training that fails writes no file ([joblib.dump] itself is taken
    to succeed, so that every failure lies before the four dumps); when it
    fails before the scaling step it leaves the globals as they were,
    too. *)
Theorem failed_training_writes_nothing st file e :
  (train_model st file).1 = Raise e →
  files (train_model st file).2 = files st
  ∧ (∀ e', training_matrix (files st) file = Raise e' →
           (train_model st file).2 = st).
Proof.
  unfold train_model.
  destruct (training_matrix _ _) as [X|e0]; simpl.
  - destruct (scale_for_training _ _) as [s [X_scaled|e1]]; simpl.
    + destruct (IsolationForest_fit _ _ _ _); [discriminate |]. by split.
    + by split.
  - by split.
Qed.

Lemma score_unfitted_scaler m df e :
  score m Unfitted df ≠ Ok e.
Proof.
  unfold score. destruct (feature_matrix df); simpl; discriminate.
Qed.

(** A training whose standardizer cannot be fit (scikit-learn refuses a
    matrix without rows, for one) leaves an unfitted scaler in the global:
    the model in memory and the files are as before, and from then on
    /predict answers every request with a 500, whatever it answered
    before. *)
Theorem failed_fit_breaks_predict st file X e :
  training_matrix (files st) file = Ok X →
  StandardScaler_fit X = Raise e →
  (DEFAULT_SCALER_FILE (files st) = None
   ∨ DEFAULT_SCALER_FILE (files st) = Some Corrupt
   ∨ ∃ s e', DEFAULT_SCALER_FILE (files st) = Some (Pickled s)
             ∧ estimator_call "StandardScaler" s (λ s, transform s X)
               = Raise e') →
  let st' := (train_model st file).2 in
  scaler st' = Some Unfitted
  ∧ model st' = model st
  ∧ files st' = files st
  ∧ ∀ file', ∃ d, predict_anomalies st' file' = Raise (HTTPException 500 d).
Proof.
  intros HX Hfit Hrefit. unfold train_model. rewrite HX.
  rewrite (scale_for_training_refit _ _ Hrefit).
  unfold fit_transform. rewrite Hfit. simpl.
  do 3 (split; [done |]).
  intros file'. unfold predict_anomalies. simpl.
  destruct (model st) as [m|]; [| eauto].
  unfold predict_frame.
  destruct (load_request (files st) file') as [df|]; simpl; [| eauto].
  destruct (check_features df) as [df'|]; simpl; [| eauto].
  destruct (score m Unfitted df') as [df''|] eqn:Hscore; simpl; [| eauto].
  by apply score_unfitted_scaler in Hscore.
Qed.

(** Successive trainings standardize against the statistics of the first:
    after a successful training, a later training on other data, which the
    persisted scaler can transform, keeps that scaler. *)
Theorem later_training_keeps_scaler st file msg file' X' :
  (train_model st file).1 = Ok msg →
  let st1 := (train_model st file).2 in
  training_matrix (files st1) file' = Ok X' →
  (∃ s X_scaled', scaler st1 = Some s
                  ∧ estimator_call "StandardScaler" s (λ s, transform s X')
                    = Ok X_scaled') →
  scaler (train_model st1 file').2 = scaler st1.
Proof.
  intros Hok st1 HX' (s' & X_scaled' & Hs' & Htransform).
  rewrite (train_model_scaler st1 file' X' HX').
  destruct (train_model_Ok _ _ _ Hok) as (X & s & X_scaled & m & _ & _ & _ & Heq).
  assert (scaler st1 = Some s
          ∧ DEFAULT_SCALER_FILE (files st1) = Some (Pickled s)) as [Hs Hf]
    by (unfold st1; by rewrite Heq).
  rewrite Hs in Hs' |- *. injection Hs' as <-.
  unfold scale_for_training. rewrite Hf. simpl.
  by rewrite Htransform.
Qed.

End ModelStore.

(** ** The routes against each other *)

Section Agreement.
Context `{Library}.

Lemma ensure_models_available st m s :
  model st = Some m → scaler st = Some s → ensure_models st = st.
Proof. unfold ensure_models. by intros -> ->. Qed.

Lemma load_request_default fs df :
  load_default_dataset fs = Some df → load_request fs None = Ok df.
Proof. unfold load_request. by intros ->. Qed.

Lemma load_request_as_upload fs name text :
  DEFAULT_DATA_FILE fs = Some text →
  endswith name ".csv" = false → endswith name ".txt" = true →
  is_Some (load_default_dataset fs) →
  load_request fs None
  = load_request fs (Some {| filename := name; contents := Some text |}).
Proof.
  intros Hfile Hcsv Htxt [df Hdf].
  unfold load_request, read_upload, decode. simpl.
  rewrite Hdf, Hcsv, Htxt.
  unfold load_default_dataset in Hdf. rewrite Hfile in Hdf.
  destruct (read_csv text ";" ["?"]) as [df0|]; [simpl in * | discriminate].
  destruct (preprocess df0) as [df'|]; [| discriminate].
  by injection Hdf as ->.
Qed.

(** The two loading paths agree: when the default dataset loads, a
    request without a file is answered, by /predict and by /train, as the
    request that uploads the text of the default file under a name ending
    in .txt. *)
Theorem default_dataset_as_upload st name text :
  DEFAULT_DATA_FILE (files st) = Some text →
  endswith name ".csv" = false → endswith name ".txt" = true →
  is_Some (load_default_dataset (files st)) →
  predict_anomalies st None
  = predict_anomalies st (Some {| filename := name; contents := Some text |})
  ∧ train_model st None
    = train_model st (Some {| filename := name; contents := Some text |}).
Proof.
  intros Hfile Hcsv Htxt Hload.
  pose proof (load_request_as_upload _ _ _ Hfile Hcsv Htxt Hload) as Heq.
  unfold predict_anomalies, predict_frame, train_model, training_matrix.
  by rewrite Heq.
Qed.

Lemma feature_matrix_Ok_check df X :
  feature_matrix df = Ok X → check_features df = Ok df.
Proof.
  unfold feature_matrix, check_features.
  by case_bool_decide.
Qed.

Lemma score_Ok_check m s df df' :
  score m s df = Ok df' → check_features df = Ok df.
Proof.
  unfold score. intros (X & HX & _)%bind_Ok.
  by eapply feature_matrix_Ok_check.
Qed.

Lemma check_features_Ok df df' : check_features df = Ok df' → df' = df.
Proof. unfold check_features. case_bool_decide; congruence. Qed.

Lemma predict_frame_analyze_frame m s fs df :
  predict_frame m s fs None = Ok df ↔ analyze_frame m s fs None = Ok df.
Proof.
  unfold predict_frame, analyze_frame, load_request.
  destruct (load_default_dataset fs) as [df0|]; [| done].
  rewrite !result_bind_Ok. split.
  - intros (df1 & ->%check_features_Ok & Hscore)%bind_Ok. done.
  - intros Hscore. by rewrite (score_Ok_check _ _ _ _ Hscore), result_bind_Ok.
Qed.

(** With a model and a scaler in memory, /predict without a file and
    /analyze-default-data without a sample size give the same successful
    answers. *)
Theorem predict_agrees_with_analyze st m s r :
  model st = Some m → scaler st = Some s →
  predict_anomalies st None = Ok r
  ↔ (analyze_default_dataset st None).1 = Ok r.
Proof.
  intros Hm Hs. unfold predict_anomalies, analyze_default_dataset.
  rewrite (ensure_models_available _ _ _ Hm Hs), Hm, Hs. simpl. split.
  - intros Hr%except_Exception_Ok.
    apply bind_Ok in Hr as (df & Hdf%predict_frame_analyze_frame & Hr).
    by rewrite Hdf, result_bind_Ok, Hr.
  - intros Hr%except_Exception_Ok.
    apply bind_Ok in Hr as (df & Hdf%predict_frame_analyze_frame & Hr).
    by rewrite Hdf, result_bind_Ok, Hr.
Qed.

Lemma assign_values_rows c values df df' :
  assign_values c values df = Ok df' → length (rows df') = length (rows df).
Proof.
  unfold assign_values. case_bool_decide as Hlen; [| discriminate].
  intros [= <-]. simpl. by apply length_zip_with_l_eq.
Qed.

(** Scoring keeps the number of rows. *)
Lemma score_rows m s df df' :
  score m s df = Ok df' → length (rows df') = length (rows df).
Proof.
  unfold score. intros Hscore. bind_inv Hscore.
  apply assign_values_rows in Hscore. rewrite Hscore.
  unfold assign. simpl. rewrite length_fmap.
  by eapply assign_values_rows.
Qed.

Lemma date_filter_ignored name op date df :
  date = None ∨ date = Some "" ∨ ("Datetime" ∉ columns df) →
  date_filter name op date df = Ok df.
Proof.
  unfold date_filter, has_column.
  intros [-> | [-> | Hcol]]; [done | done |].
  destruct date as [text|]; [| done].
  by rewrite (bool_decide_false _ Hcol), andb_false_r.
Qed.

Lemma head_all n df : (length (rows df) ≤ n)%nat → head n df = df.
Proof.
  intros Hlen. destruct df as [cols rs]. unfold head. simpl in *.
  by rewrite take_ge.
Qed.

(** /predict and /anomalies agree: a successful answer of /predict on the
    default dataset, with at least one record and at most 1000 anomalies,
    is the answer of /anomalies without filters. *)
Theorem predict_agrees_with_anomalies st r :
  predict_anomalies st None = Ok r →
  total_records r ≠ 0 → anomaly_count r ≤ 1000 →
  (get_anomalies st None None None).1 = Ok r.
Proof.
  unfold predict_anomalies, get_anomalies.
  destruct (model st) as [m|] eqn:Hm; [| discriminate].
  destruct (scaler st) as [s|] eqn:Hs; [| discriminate].
  intros Hr%except_Exception_Ok Htotal Hcount.
  rewrite (ensure_models_available _ _ _ Hm Hs), Hm, Hs. simpl.
  apply bind_Ok in Hr as (df & Hdf & Hr).
  pose proof (respond_Ok _ _ _ Hr) as (Hlen & Hc & Ht & _).
  unfold predict_frame, load_request in Hdf. unfold anomalies_frame.
  destruct (load_default_dataset (files st)) as [df0|]; [| discriminate].
  cbv beta iota in Hdf. rewrite result_bind_Ok in Hdf.
  apply bind_Ok in Hdf as (df1 & ->%check_features_Ok & Hscore).
  cbv beta iota. rewrite result_bind_Ok.
  rewrite (date_filter_ignored "start_date" _ None df0), result_bind_Ok
    by auto.
  rewrite (date_filter_ignored "end_date" _ None df0), result_bind_Ok
    by auto.
  pose proof (score_rows _ _ _ _ Hscore) as Hrows.
  assert ((len df0 =? 0) = false) as ->.
  { apply Z.eqb_neq. unfold len in *. rewrite <-Hrows. congruence. }
  rewrite Hscore, !result_bind_Ok. simpl.
  rewrite head_all; [by rewrite Hr |].
  unfold max_anomalies. rewrite <-Hlen. lia.
Qed.

(** A sample size that is zero, negative, or not below the number of
    loaded records takes no sample: the answer is that of the request
    without a sample size. *)
Theorem sample_size_out_of_range st n :
  (n ≤ 0 ∨ ∃ df, load_default_dataset (files st) = Some df ∧ len df ≤ n) →
  analyze_default_dataset st (Some n) = analyze_default_dataset st None.
Proof.
  intros Hn. unfold analyze_default_dataset.
  destruct (model (ensure_models st)) as [m|]; [| done].
  destruct (scaler (ensure_models st)) as [s|]; [| done].
  do 3 f_equal. unfold analyze_frame.
  destruct (load_default_dataset (files (ensure_models st))) as [df|] eqn:Hdf;
    [| done].
  rewrite !result_bind_Ok.
  assert (negb (n =? 0) && (0 <? n) && (n <? len df) = false) as ->; [| done].
  destruct Hn as [Hn | (df' & Hdf' & Hn)].
  - rewrite (proj2 (Z.ltb_ge 0 n)) by lia. by rewrite andb_false_r.
  - rewrite files_ensure_models in Hdf. rewrite Hdf in Hdf'.
    injection Hdf' as <-.
    rewrite (proj2 (Z.ltb_ge n (len df))) by lia. by rewrite andb_false_r.
Qed.

(** An empty [start_date] or [end_date] counts as absent, and on a
    default dataset without a Datetime column both dates are ignored,
    whatever they are: no filter, and no error for a date that does not
    parse. *)
Theorem dates_ignored st start_date end_date feature_filter :
  get_anomalies st (Some "") end_date feature_filter
  = get_anomalies st None end_date feature_filter
  ∧ get_anomalies st start_date (Some "") feature_filter
    = get_anomalies st start_date None feature_filter
  ∧ ∀ df, load_default_dataset (files st) = Some df →
          ("Datetime" ∉ columns df) →
          get_anomalies st start_date end_date feature_filter
          = get_anomalies st None None feature_filter.
Proof.
  split; [done |]. split; [done |].
  intros df Hdf Hcol. unfold get_anomalies.
  destruct (model (ensure_models st)) as [m|]; [| done].
  destruct (scaler (ensure_models st)) as [s|]; [| done].
  do 3 f_equal. unfold anomalies_frame.
  rewrite files_ensure_models, Hdf, !result_bind_Ok.
  rewrite (date_filter_ignored "start_date" Z.geb start_date df) by auto.
  rewrite result_bind_Ok.
  by rewrite (date_filter_ignored "end_date" Z.leb end_date df) by auto.
Qed.

Lemma str_404 :
  str (HTTPException 404 "Default dataset not found")
  = "404: Default dataset not found".
Proof. vm_compute. reflexivity. Qed.

Lemma str_400_no_file :
  str (HTTPException 400 "No file provided and default dataset not found")
  = "400: No file provided and default dataset not found".
Proof. vm_compute. reflexivity. Qed.

(** When the default dataset cannot be loaded (no file, or a file that
    does not parse), /anomalies answers 404, while the three other routes
    answer 500 and carry the status their handler raised, 404 or 400, in
    the detail only. *)
Theorem default_dataset_not_found st m s :
  model st = Some m → scaler st = Some s →
  load_default_dataset (files st) = None →
  (∀ sd ed ff,
     (get_anomalies st sd ed ff).1
     = Raise (HTTPException 404 "Default dataset not found"))
  ∧ (∀ n,
       (analyze_default_dataset st n).1
       = Raise (HTTPException 500
           "Error analyzing default dataset: 404: Default dataset not found"))
  ∧ predict_anomalies st None
    = Raise (HTTPException 500
        "Error processing file: 400: No file provided and default dataset not found")
  ∧ (train_model st None).1
    = Raise (HTTPException 500
        "Error training model: 400: No file provided and default dataset not found").
Proof.
  intros Hm Hs Hload. repeat split.
  - intros sd ed ff. unfold get_anomalies, anomalies_frame.
    rewrite (ensure_models_available _ _ _ Hm Hs), Hm, Hs, Hload. done.
  - intros n. unfold analyze_default_dataset, analyze_frame.
    rewrite (ensure_models_available _ _ _ Hm Hs), Hm, Hs, Hload.
    cbn -[str]. by rewrite str_404.
  - unfold predict_anomalies, predict_frame, load_request.
    rewrite Hm, Hs, Hload.
    cbn -[str]. by rewrite str_400_no_file.
  - unfold train_model, training_matrix, load_request, train_error.
    rewrite Hload. cbn -[str]. by rewrite str_400_no_file.
Qed.

(** A [start_date] that does not parse is answered 400 by /anomalies when
    the default dataset has a Datetime column; the detail carries the
    prefix twice, once from the [ValueError] and once from the handler
    of it.  The same holds for [end_date] once the start date is out of the
    way. *)
Theorem invalid_dates_answered_400 st m s df text :
  model (ensure_models st) = Some m → scaler (ensure_models st) = Some s →
  load_default_dataset (files st) = Some df →
  "Datetime" ∈ columns df →
  text ≠ "" → parse_datetime text = None →
  (∀ ed ff,
     (get_anomalies st (Some text) ed ff).1
     = Raise (HTTPException 400
         ("Invalid start_date format: Invalid start_date format: " +:+ text)))
  ∧ (∀ ff,
       (get_anomalies st None (Some text) ff).1
       = Raise (HTTPException 400
           ("Invalid end_date format: Invalid end_date format: " +:+ text))).
Proof.
  intros Hm Hs Hdf Hcol Htext Hparse.
  assert (∀ name op,
            date_filter name op (Some text) df
            = Raise (HTTPException 400
                ("Invalid " +:+ name +:+ " format: "
                 +:+ ("Invalid " +:+ name +:+ " format: " +:+ text))))
    as Hfilter.
  { intros name op. unfold date_filter, has_column.
    rewrite (given_Some _ Htext), (bool_decide_true _ Hcol), Hparse. done. }
  split.
  - intros ed ff. unfold get_anomalies, anomalies_frame.
    rewrite Hm, Hs, files_ensure_models, Hdf, result_bind_Ok, Hfilter. done.
  - intros ff. unfold get_anomalies, anomalies_frame.
    rewrite Hm, Hs, files_ensure_models, Hdf, result_bind_Ok.
    simpl (date_filter "start_date" Z.geb None df).
    rewrite result_bind_Ok, Hfilter. done.
Qed.

(** /predict never loads the artifacts itself, the two GET routes do:
    while a global is missing and the disk holds a pair, /predict refuses
    every request; any GET of /anomalies or /analyze-default-data, even one
    that fails, leaves the pair in the globals, and /predict then no longer
    refuses. *)
Theorem get_routes_load_the_models st m s :
  model st = None ∨ scaler st = None →
  load_model (files st) = (Some m, Some s) →
  let loaded := {| model := Some m; scaler := Some s; files := files st |} in
  (∀ sd ed ff, (get_anomalies st sd ed ff).2 = loaded)
  ∧ (∀ n, (analyze_default_dataset st n).2 = loaded)
  ∧ ∀ file,
      predict_anomalies st file
      = Raise (HTTPException 500
          "Model not trained yet. Please upload a training dataset first.")
      ∧ predict_anomalies loaded file
        ≠ Raise (HTTPException 500
            "Model not trained yet. Please upload a training dataset first.").
Proof.
  intros Hnone Hload loaded.
  assert (ensure_models st = loaded) as Hensure.
  { unfold ensure_models. rewrite Hload.
    by destruct Hnone as [-> | ->]; [| destruct (model st)]. }
  split; [| split].
  - intros sd ed ff. unfold get_anomalies. rewrite Hensure. done.
  - intros n. unfold analyze_default_dataset. rewrite Hensure. done.
  - intros file. split.
    + unfold predict_anomalies.
      by destruct Hnone as [-> | ->]; [| destruct (model st)].
    + unfold predict_anomalies. simpl.
      destruct (_ ≫= _) as [r|e]; simpl; [discriminate |].
      intros [= Hdetail].
Qed.

End Agreement.

(** ** More on what the loader keeps and drops *)

Section LoaderMore.
Context `{Library}.







Lemma labels_assign c g df : (rows (assign c g df)).*1 = (rows df).*1.
Proof.
  unfold assign. simpl. rewrite <-list_fmap_compose.
  by apply list_fmap_ext.
Qed.

Lemma labels_foldl_infer l df :
  (rows (foldl infer_dtype df l)).*1 = (rows df).*1.
Proof.
  revert df. induction l as [|col l IH]; intros df; [done |].
  simpl. rewrite IH. unfold infer_dtype.
  destruct (numeric_dtype col df); [apply labels_assign | done].
Qed.

Lemma labels_read_csv text sep na_values df :
  read_csv text sep na_values = Ok df →
  (rows df).*1 = seq 0 (length (records sep text)).
Proof.
  unfold read_csv. case_bool_decide; [discriminate |].
  destruct (existsb _ _); [discriminate |].
  intros [= <-]. rewrite labels_foldl_infer. simpl.
  rewrite fmap_imap.
  rewrite (imap_ext _ (λ i _, i)) by done.
  by rewrite (imap_seq_0 _ (λ i : nat, i)), list_fmap_id.
Qed.

Lemma labels_filter_fmap {A} (g : nat * A → nat * A) (P : nat * A → Prop)
    `{∀ x, Decision (P x)} (l : list (nat * A)) :
  (∀ x, (g x).1 = x.1) →
  (filter P (g <$> l)).*1 `sublist_of` l.*1.
Proof.
  intros Hg. induction l as [|x l IH]; [done |].
  rewrite fmap_cons, filter_cons. case_decide.
  - rewrite !fmap_cons, Hg. by apply sublist_skip.
  - rewrite fmap_cons. by apply sublist_cons.
Qed.

(** The loaded frame keeps the records in the order of the file, each at
    most once, under its position as index label; and none of its rows has
    a missing value in any column. *)
Theorem loaded_rows_in_file_order fs file df text sep na_values :
  load_request fs file = Ok df →
  request_source fs file = Some (text, sep, na_values) →
  (rows df).*1 `sublist_of` seq 0 (length (records sep text))
  ∧ NoDup (rows df).*1
  ∧ len df ≤ Z.of_nat (length (records sep text))
  ∧ ∀ ir c, ir ∈ rows df → c ∈ columns df → at_col c ir.2 ≠ NaN.
Proof.
  intros (text' & sep' & na' & df0 & Hsrc & Hread & Hpre)%load_request_source
    Hsrc'.
  rewrite Hsrc in Hsrc'. injection Hsrc' as -> -> ->.
  assert ((rows df).*1 `sublist_of` seq 0 (length (records sep text)))
    as Hsub.
  { rewrite <-(labels_read_csv _ _ _ _ Hread).
    destruct (preprocess_shape _ _ Hpre) as (pre & -> & _).
    by apply labels_filter_fmap. }
  split; [done |]. split; [| split].
  - eapply sublist_NoDup; [apply NoDup_seq | exact Hsub].
  - apply sublist_length in Hsub.
    rewrite length_fmap, length_seq in Hsub. unfold len. lia.
  - intros ir c Hir Hc.
    destruct (preprocess_row _ _ _ Hpre Hir) as (Hcomplete & _).
    rewrite complete_spec in Hcomplete. by apply Hcomplete.
Qed.

End LoaderMore.

(** ** The format check *)

Lemma substring_all s : String.substring 0 (String.length s) s = s.
Proof. induction s as [|c s IH]; simpl; [done | by rewrite IH]. Qed.

Lemma substring_app_r p s :
  String.substring (String.length p) (String.length s) (p +:+ s) = s.
Proof. induction p as [|c p IH]; simpl; [apply substring_all | done]. Qed.

Lemma length_app_string p s :
  String.length (p +:+ s) = (String.length p + String.length s)%nat.
Proof. induction p as [|c p IH]; simpl; [done | by rewrite IH]. Qed.

Lemma substring_split s i :
  (i ≤ String.length s)%nat →
  s = String.substring 0 i s
      +:+ String.substring i (String.length s - i) s.
Proof.
  revert i. induction s as [|c s IH]; intros i Hi.
  - destruct i; simpl in *; [done | lia].
  - destruct i as [|i]; simpl.
    + by rewrite substring_all.
    + transitivity
        (String c (String.substring 0 i s
                   +:+ String.substring i (String.length s - i) s));
        [| reflexivity].
      f_equal. apply IH. simpl in Hi. lia.
Qed.

(** [endswith] is Python's: a name passes the check for a suffix exactly
    when it is some prefix followed by the suffix; the comparison is
    case-sensitive. *)
Theorem endswith_spec s suffix :
  endswith s suffix = true ↔ ∃ prefix, s = prefix +:+ suffix.
Proof.
  unfold endswith. split.
  - remember (String.length suffix) as k eqn:Hk.
    intros [Hlen Heq]%andb_true_iff.
    apply Nat.leb_le in Hlen. apply String.eqb_eq in Heq.
    exists (String.substring 0 (String.length s - k) s).
    rewrite <-Heq.
    replace k with (String.length s - (String.length s - k))%nat at 3 by lia.
    apply substring_split. lia.
  - intros [prefix ->]. rewrite length_app_string.
    apply andb_true_iff. split; [apply Nat.leb_le; lia |].
    replace (String.length prefix + String.length suffix
             - String.length suffix)%nat
      with (String.length prefix) by lia.
    rewrite substring_app_r. apply String.eqb_refl.
Qed.

(** ** More on the answers *)

Section AnswersMore.
Context `{Library}.

(** What an answer is shaped from: a frame, and flagged rows that are
    rows of it. *)
Lemma serve_Ok_frames st q r :
  (serve st q).1 = Ok r →
  r = empty_response
  ∨ ∃ anomaly_df df,
      respond anomaly_df df = Ok r
      ∧ (length (rows anomaly_df) ≤ length (rows df))%nat.
Proof.
  assert (∀ df, length (rows (select is_anomaly df)) ≤ length (rows df))%nat
    as Hselect by (intros df; apply length_filter).
  destruct q as [file | sd ed ff | n]; simpl.
  - unfold predict_anomalies.
    destruct (model st), (scaler st); try discriminate.
    intros Hr%except_Exception_Ok.
    apply bind_Ok in Hr as (df & _ & Hr). right. eauto.
  - unfold get_anomalies.
    destruct (model (ensure_models st)), (scaler (ensure_models st));
      try discriminate.
    simpl. intros Hr%except_reraise_Ok.
    apply bind_Ok in Hr as ([df|] & _ & Hr).
    + right. eexists _, df. split; [done |].
      rewrite head_length. specialize (Hselect df). lia.
    + left. by injection Hr as <-.
  - unfold analyze_default_dataset.
    destruct (model (ensure_models st)), (scaler (ensure_models st));
      try discriminate.
    simpl. intros Hr%except_Exception_Ok.
    apply bind_Ok in Hr as (df & _ & Hr). right. eauto.
Qed.

(** In every successful answer of the three routes the count of
    anomalies lies between 0 and the number of records. *)
Theorem anomaly_count_bounds st q r :
  (serve st q).1 = Ok r → 0 ≤ anomaly_count r ≤ total_records r.
Proof.
  intros [-> | (adf & df & Hr & Hle)]%serve_Ok_frames; [done |].
  apply respond_Ok in Hr as (Hlen & -> & -> & _).
  unfold len. lia.
Qed.

Lemma anomalies_frame_filtered m s fs sd ed ff frame :
  anomalies_frame m s fs sd ed ff = Ok frame →
  ∃ frame0,
    anomalies_frame m s fs sd ed None = Ok frame0
    ∧ (frame = frame0
       ∨ ∃ f df0, ff = Some f ∧ f ∈ features
                  ∧ frame0 = Some df0 ∧ frame = Some (sort_values f df0)).
Proof.
  unfold anomalies_frame.
  destruct (load_default_dataset fs) as [df|]; [| discriminate].
  rewrite !result_bind_Ok.
  destruct (date_filter "start_date" Z.geb sd df) as [df1|]; [| discriminate].
  rewrite !result_bind_Ok.
  destruct (date_filter "end_date" Z.leb ed df1) as [df2|]; [| discriminate].
  rewrite !result_bind_Ok.
  destruct (len df2 =? 0); [intros [= <-]; eauto |].
  destruct (score m s df2) as [df3|]; [| discriminate].
  rewrite !result_bind_Ok.
  destruct ff as [f|]; [| intros [= <-]; eauto].
  destruct (given (Some f) && bool_decide (f ∈ features)) eqn:Hcond;
    intros [= <-]; [| eauto].
  apply andb_true_iff in Hcond as [_ Hf%bool_decide_eq_true].
  eexists. split; [done |]. right. by exists f, df3.
Qed.

Lemma sort_values_rows f df : rows (sort_values f df) ≡ₚ rows df.
Proof. apply merge_sort_Permutation. Qed.

Lemma sort_values_flagged f df :
  length (rows (select is_anomaly (sort_values f df)))
  = length (rows (select is_anomaly df)).
Proof.
  unfold select. simpl. apply Permutation_length.
  by rewrite merge_sort_Permutation.
Qed.

(** The feature filter only reorders: when /anomalies succeeds with and
    without it, the two answers have the same [anomaly_count],
    [total_records] and [anomaly_percentage]. *)
Theorem feature_filter_keeps_statistics st sd ed ff r r0 :
  (get_anomalies st sd ed ff).1 = Ok r →
  (get_anomalies st sd ed None).1 = Ok r0 →
  anomaly_count r = anomaly_count r0
  ∧ total_records r = total_records r0
  ∧ anomaly_percentage r = anomaly_percentage r0.
Proof.
  unfold get_anomalies.
  destruct (model (ensure_models st)) as [m|]; [| discriminate].
  destruct (scaler (ensure_models st)) as [s|]; [| discriminate].
  simpl. intros Hr%except_reraise_Ok Hr0%except_reraise_Ok.
  apply bind_Ok in Hr as (frame & Hframe & Hr).
  apply bind_Ok in Hr0 as (frame0 & Hframe0 & Hr0).
  destruct (anomalies_frame_filtered _ _ _ _ _ _ _ Hframe)
    as (frame0' & Hframe0' & Hcases).
  rewrite Hframe0 in Hframe0'. injection Hframe0' as <-.
  destruct Hcases as [-> | (f & df0 & _ & _ & -> & ->)].
  - rewrite Hr in Hr0. by injection Hr0 as <-.
  - apply respond_Ok in Hr as (Hlen & Hc & Ht & Hp).
    apply respond_Ok in Hr0 as (Hlen0 & Hc0 & Ht0 & Hp0).
    rewrite head_length, sort_values_flagged in Hlen.
    rewrite head_length in Hlen0.
    assert (anomaly_count r = anomaly_count r0) as Hcount by congruence.
    assert (total_records r = total_records r0) as Htotal.
    { rewrite Ht, Ht0. unfold len. f_equal.
      apply Permutation_length, sort_values_rows. }
    split; [done |]. split; [done |]. congruence.
Qed.

Lemma feature_nonempty f : f ∈ features → f ≠ "".
Proof.
  unfold features. rewrite !elem_of_cons, elem_of_nil.
  intros Hf. repeat destruct Hf as [-> | Hf]; done.
Qed.

(** The rows of the frame /anomalies prepares with a feature filter come
    in descending order of that feature, as soon as the comparison of
    floats is asymmetric. *)
Theorem feature_filter_sorts m s fs sd ed f df :
  (∀ x y, float_ltb x y = true → float_ltb y x = false) →
  f ∈ features →
  anomalies_frame m s fs sd ed (Some f) = Ok (Some df) →
  Sorted (descending f) (rows df).
Proof.
  intros Hasym Hf Hframe.
  assert (Total (descending f)) as Htotal.
  { intros a b. unfold descending.
    destruct (sort_key f a.2) as [x|], (sort_key f b.2) as [y|]; auto.
    destruct (float_ltb x y) eqn:Hxy; [right; by apply Hasym | by left]. }
  revert Hframe. unfold anomalies_frame.
  destruct (load_default_dataset fs) as [df0|]; [| discriminate].
  rewrite !result_bind_Ok.
  destruct (date_filter "start_date" Z.geb sd df0) as [df1|]; [| discriminate].
  rewrite !result_bind_Ok.
  destruct (date_filter "end_date" Z.leb ed df1) as [df2|]; [| discriminate].
  rewrite !result_bind_Ok.
  destruct (len df2 =? 0); [discriminate |].
  destruct (score m s df2) as [df3|]; [| discriminate].
  rewrite !result_bind_Ok.
  rewrite (given_Some f (feature_nonempty f Hf)), (bool_decide_true _ Hf).
  simpl. intros [= <-].
  by apply Sorted_merge_sort.
Qed.

Lemma pretty_400 : pretty (400 : Z) = "400".
Proof. vm_compute. reflexivity. Qed.

(** When the loaded frame lacks features, /predict and /train answer 500
    and /train leaves the state as it was; the detail lists the features
    that are no column of the frame, all of them and no other. *)
Theorem missing_features_named st m s file df :
  model st = Some m → scaler st = Some s →
  load_request (files st) file = Ok df →
  missing_features df ≠ [] →
  predict_anomalies st file
  = Raise (HTTPException 500
      ("Error processing file: 400: Missing required features: "
       +:+ repr_list (missing_features df)))
  ∧ train_model st file
    = (Raise (HTTPException 500
         ("Error training model: 400: Missing required features: "
          +:+ repr_list (missing_features df))), st)
  ∧ ∀ f, f ∈ missing_features df ↔ f ∈ features ∧ f ∉ columns df.
Proof.
  intros Hm Hs Hload Hmissing.
  assert (check_features df
          = Raise (HTTPException 400
              ("Missing required features: "
               +:+ repr_list (missing_features df)))) as Hcheck.
  { unfold check_features. by rewrite (bool_decide_false _ Hmissing). }
  split; [| split].
  - unfold predict_anomalies, predict_frame.
    rewrite Hm, Hs, Hload, result_bind_Ok, Hcheck.
    cbn -[str repr_list missing_features]. unfold str. by rewrite pretty_400.
  - unfold train_model, training_matrix, train_error.
    rewrite Hload, result_bind_Ok, Hcheck.
    cbn -[str repr_list missing_features]. unfold str. by rewrite pretty_400.
  - intros f. unfold missing_features. rewrite list_elem_of_filter. tauto.
Qed.

Lemma is_anomaly_insert_score v r :
  is_anomaly (<["anomaly_score" := v]> r) = is_anomaly r.
Proof. unfold is_anomaly. by rewrite at_col_insert. Qed.

Lemma is_anomaly_label z r :
  is_anomaly (<["anomaly" := map_labels (at_col "anomaly" (<["anomaly" := Int z]> r))]>
                (<["anomaly" := Int z]> r))
  = bool_decide (z = -1).
Proof.
  unfold is_anomaly. rewrite !at_col_insert. simpl.
  unfold labels. 
  destruct (decide (z = -1)) as [-> | Hm1]; [done |].
  destruct (decide (z = 1)) as [-> | H1]; [done |].
  rewrite bool_decide_false by done.
  rewrite lookup_insert_ne by done.
  rewrite lookup_singleton_ne by done. done.
Qed.

(** -1 is anomaly: the rows a scored frame flags are those, position by
    position, that the forest labels -1; a label 1, or any other, is not
    flagged. *)
Theorem flagged_iff_minus_one m s df df' :
  score m s df = Ok df' →
  ∃ X X_scaled predictions,
    feature_matrix df = Ok X
    ∧ estimator_call "StandardScaler" s (λ s, transform s X) = Ok X_scaled
    ∧ estimator_call "IsolationForest" m (λ m, predict m X_scaled)
      = Ok predictions
    ∧ (λ ir, is_anomaly ir.2) <$> rows df'
      = (λ z, bool_decide (z = -1)) <$> predictions.
Proof.
  unfold score. intros Hscore.
  apply bind_Ok in Hscore as (X & HX & Hscore).
  apply bind_Ok in Hscore as (X_scaled & HXs & Hscore).
  apply bind_Ok in Hscore as (predictions & Hp & Hscore).
  apply bind_Ok in Hscore as (scores & Hsc & Hscore).
  apply bind_Ok in Hscore as (df1 & Hdf1 & Hscore).
  exists X, X_scaled, predictions. do 3 (split; [done |]).
  unfold assign_values in Hdf1.
  case_bool_decide as Hlen1; [| discriminate]. injection Hdf1 as <-.
  unfold assign_values in Hscore. simpl in Hscore.
  case_bool_decide as Hlen2; [| discriminate]. injection Hscore as <-.
  simpl. clear HX HXs Hp Hsc.
  rewrite length_fmap in Hlen1. rewrite !length_fmap in Hlen2.
  rewrite length_zip_with_l_eq in Hlen2 by (by rewrite length_fmap).
  revert predictions scores Hlen1 Hlen2.
  induction (rows df) as [|ir rs IH]; intros [|z ps] [|x xs] Hl1 Hl2;
    simpl in *; try done.
  rewrite is_anomaly_insert_score, is_anomaly_label. f_equal.
  apply IH; congruence.
Qed.

End AnswersMore.

(** ** What the answer of /predict reports *)

Section ReportedScores.
Context `{Library}.

Lemma anomaly_entry_score cols x r e :
  anomaly_entry cols (<["anomaly_score" := Num x]> r) = Ok e →
  anomaly_score e = x.
Proof.
  unfold anomaly_entry. intros He. bind_inv He.
  injection He as <-. simpl.
  match goal with
  | Hs : as_float (at_col "anomaly_score" _) = Ok _ |- _ =>
      rewrite at_col_insert, decide_True in Hs by done;
      simpl in Hs; by injection Hs
  end.
Qed.

Lemma filter_zip_minus_one (P : list Z) (S : list float) :
  length S = length P →
  length (filter (λ zs : Z * float, zs.1 = -1) (zip P S))
  = length (filter (λ z, z = -1) P).
Proof.
  revert S. induction P as [|z P IH]; intros [|x S] Hlen; simpl in *; try done.
  rewrite !filter_cons. simpl.
  destruct (decide (z = -1)); simpl; rewrite IH; congruence.
Qed.

Lemma flagged_entries_scores cols (R : list (nat * gmap string cell)) P S entries :
  length P = length R → length S = length R →
  mapM (λ ir : nat * gmap string cell, anomaly_entry cols ir.2)
    (filter (λ ir, is_anomaly ir.2 = true)
       (zip_with (λ ir v, (ir.1, <["anomaly_score" := v]> ir.2))
          (map (λ ir, (ir.1, <["anomaly" := map_labels (at_col "anomaly" ir.2)]>
                               ir.2))
             (zip_with (λ ir v, (ir.1, <["anomaly" := v]> ir.2)) R
                (Int <$> P)))
          (Num <$> S)))
  = Ok entries →
  anomaly_score <$> entries
  = (filter (λ zs : Z * float, zs.1 = -1) (zip P S)).*2.
Proof.
  revert P S entries.
  induction R as [|ir R IH]; intros [|z P] [|x S] entries Hl1 Hl2;
    simpl in *; try done.
  - by intros [= <-].
  - rewrite !filter_cons. simpl.
    rewrite is_anomaly_insert_score, is_anomaly_label.
    destruct (decide (z = -1)) as [-> | Hz].
    + simpl. intros Hentries. bind_inv Hentries.
      injection Hentries as <-. simpl. f_equal.
      * by eapply anomaly_entry_score.
      * apply IH; [congruence | congruence | done].
    + rewrite bool_decide_false by done. simpl.
      rewrite ?decide_False by done. apply IH; congruence.
Qed.

(** The answer of /predict reports the rows the model labels -1, with the
    scores [decision_function] gives them, in the order of the frame; it
    counts them, and counts every loaded row as a record. *)
Theorem predict_reports_flagged_scores st m s file r :
  model st = Some m → scaler st = Some s →
  predict_anomalies st file = Ok r →
  ∃ df X X_scaled predictions anomaly_scores,
    load_request (files st) file = Ok df
    ∧ feature_matrix df = Ok X
    ∧ estimator_call "StandardScaler" s (λ s, transform s X) = Ok X_scaled
    ∧ estimator_call "IsolationForest" m (λ m, predict m X_scaled)
      = Ok predictions
    ∧ estimator_call "IsolationForest" m (λ m, decision_function m X_scaled)
      = Ok anomaly_scores
    ∧ total_records r = len df
    ∧ anomaly_count r
      = Z.of_nat (length (filter (λ z, z = -1) predictions))
    ∧ anomaly_score <$> anomalies r
      = (filter (λ zs : Z * float, zs.1 = -1)
           (zip predictions anomaly_scores)).*2.
Proof.
  intros Hm Hs. unfold predict_anomalies. rewrite Hm, Hs.
  intros Hr%except_Exception_Ok.
  apply bind_Ok in Hr as (df' & Hframe & Hrespond).
  unfold predict_frame in Hframe.
  apply bind_Ok in Hframe as (df & Hload & Hframe).
  apply bind_Ok in Hframe as (df1 & ->%check_features_Ok & Hscore).
  unfold score in Hscore.
  apply bind_Ok in Hscore as (X & HX & Hscore).
  apply bind_Ok in Hscore as (X_scaled & HXs & Hscore).
  apply bind_Ok in Hscore as (predictions & Hp & Hscore).
  apply bind_Ok in Hscore as (scores & Hsc & Hscore).
  apply bind_Ok in Hscore as (df2 & Hdf2 & Hscore).
  exists df, X, X_scaled, predictions, scores. do 5 (split; [done |]).
  unfold assign_values in Hdf2.
  case_bool_decide as Hlen1; [| discriminate]. injection Hdf2 as <-.
  unfold assign_values in Hscore. simpl in Hscore.
  case_bool_decide as Hlen2; [| discriminate]. injection Hscore as <-.
  rewrite length_fmap in Hlen1. rewrite !length_fmap in Hlen2.
  rewrite length_zip_with_l_eq in Hlen2 by (by rewrite length_fmap).
  unfold respond in Hrespond.
  apply bind_Ok in Hrespond as (entries & Hentries & Hrespond).
  injection Hrespond as <-. simpl in *.
  apply flagged_entries_scores in Hentries; [| done | done].
  split; [| split; [| done]].
  - unfold len. simpl. f_equal.
    rewrite length_zip_with_l_eq; rewrite length_map, length_zip_with_l_eq;
      rewrite ?length_fmap; congruence.
  - f_equal. rewrite <- (filter_zip_minus_one predictions scores) by congruence.
    rewrite <- (length_fmap snd), <- Hentries. by rewrite length_fmap.
Qed.

End ReportedScores.

(** ** A default dataset that exists and does not load *)

Section UnreadableDataset.
Context `{Library}.

(** [load_default_dataset] swallows every exception of its body: a default
    dataset that is on disk and does not parse is reported as not found,
    where the same text sent as an upload is answered with the parser's
    own message. *)
Theorem unreadable_default_dataset st m s name text e :
  model st = Some m → scaler st = Some s →
  DEFAULT_DATA_FILE (files st) = Some text →
  (df ← read_csv text ";" ["?"]; preprocess df) = Raise e →
  endswith name ".csv" = false → endswith name ".txt" = true →
  load_default_dataset (files st) = None
  ∧ predict_anomalies st None
    = Raise (HTTPException 500
        "Error processing file: 400: No file provided and default dataset not found")
  ∧ predict_anomalies st (Some {| filename := name; contents := Some text |})
    = Raise (HTTPException 500 ("Error processing file: " +:+ str e)).
Proof.
  intros Hm Hs Hfile Hraise Hcsv Htxt.
  assert (load_default_dataset (files st) = None) as Hnone.
  { unfold load_default_dataset. by rewrite Hfile, Hraise. }
  split; [done |]. unfold predict_anomalies. rewrite Hm, Hs.
  unfold predict_frame, load_request. rewrite Hnone. split.
  - cbn -[str]. by rewrite str_400_no_file.
  - unfold read_upload, decode. cbn -[str]. rewrite Hcsv, Htxt.
    destruct (read_csv text ";" ["?"]) as [df|e0]; cbn -[str] in *.
    + by rewrite Hraise.
    + by injection Hraise as ->.
Qed.

End UnreadableDataset.

(** ** The theorems above on the implementation [Demo] *)

Section OnDemo.
Local Existing Instance Demo.demo.

Lemma anomaly_percentage_formula_witness :
  (0 < total_records Demo.predicted →
   anomaly_percentage Demo.predicted
   = float_mul (int_truediv (anomaly_count Demo.predicted)
                            (total_records Demo.predicted))
               (float_of_int 100))
  ∧ (total_records Demo.predicted = 0 →
     anomaly_percentage Demo.predicted = float_of_int 0).
Proof.
  apply (anomaly_percentage_formula Demo.trained (POST_predict None)).
  apply Ok_from_Ok. vm_compute. reflexivity.
Defined.

Lemma anomaly_count_is_list_length_witness :
  anomaly_count Demo.surge_answer
  = Z.of_nat (length (anomalies Demo.surge_answer))
  ∧ anomaly_count Demo.surge_answer = 1000
  ∧ anomaly_percentage Demo.surge_answer = percentage 1000 1001.
Proof.
  destruct (anomaly_count_is_list_length Demo.surged
              (GET_anomalies None None None) Demo.surge_answer)
    as [Hlen Hcap].
  - apply Ok_from_Ok. vm_compute. reflexivity.
  - destruct (Hcap None None None Demo.fitted_model Demo.fitted_scaler
                Demo.surge_frame) as (_ & Hcount & _ & Hpct).
    + reflexivity.
    + vm_compute. reflexivity.
    + vm_compute. reflexivity.
    + apply Ok_Some_from_Ok. vm_compute. reflexivity.
    + apply Nat.ltb_lt. vm_compute. reflexivity.
    + assert (len Demo.surge_frame = 1001) as Htotal
        by (apply Z.eqb_eq; vm_compute; reflexivity).
      split; [exact Hlen |]. split; [exact Hcount |].
      rewrite Hpct. rewrite Htotal. reflexivity.
Defined.

Lemma cap_only_in_get_anomalies_witness :
  (length (anomalies Demo.surge_answer) ≤ 1000)%nat.
Proof.
  apply (cap_only_in_get_anomalies Demo.surged (GET_anomalies None None None)).
  apply Ok_from_Ok. vm_compute. reflexivity.
Defined.

(** C2.  The cap of 1000 is missing in two of the three routes: after a
    training, /predict answers an upload of 1001 flagged rows with 1001
    entries, and /analyze-default-data answers a default dataset of 1001
    flagged rows with 1001 entries, where /anomalies answers the same
    dataset with 1000. *)
Theorem uncapped_routes_return_1001_anomalies :
  length ∘ anomalies
    <$> predict_anomalies Demo.trained (Some Demo.surge_upload)
  = Ok 1001%nat
  ∧ length ∘ anomalies <$> (analyze_default_dataset Demo.surged None).1
    = Ok 1001%nat
  ∧ length ∘ anomalies <$> (get_anomalies Demo.surged None None None).1
    = Ok 1000%nat.
Proof. split; [| split]; vm_compute; reflexivity. Qed.

Lemma predict_before_training_witness :
  predict_anomalies Demo.untrained None
  = Raise (HTTPException 500
             "Model not trained yet. Please upload a training dataset first.").
Proof. apply predict_before_training. left. reflexivity. Defined.

(** C1.  The code answers client faults with 500, not 4xx: after a
    training, an upload named readings.json and an upload without the
    column Voltage are both answered with status 500 by /predict and by
    /train; the 400 raised inside the handler is caught by its own
    [except Exception] and only survives as text in the detail. *)
Theorem client_faults_answered_500 :
  predict_anomalies Demo.trained (Some Demo.json_upload)
  = Raise (HTTPException 500
      "Error processing file: 400: Unsupported file format. Please upload a .csv or .txt file")
  ∧ predict_anomalies Demo.trained (Some Demo.no_voltage_upload)
    = Raise (HTTPException 500
        "Error processing file: 400: Missing required features: ['Voltage']")
  ∧ (train_model Demo.trained (Some Demo.json_upload)).1
    = Raise (HTTPException 500
        "Error training model: 400: Unsupported file format. Please upload a .csv or .txt file")
  ∧ (train_model Demo.trained (Some Demo.no_voltage_upload)).1
    = Raise (HTTPException 500
        "Error training model: 400: Missing required features: ['Voltage']").
Proof. repeat split; vm_compute; reflexivity. Qed.

Lemma unknown_feature_filter_ignored_witness :
  get_anomalies Demo.trained None None (Some "Frequency")
  = get_anomalies Demo.trained None None None.
Proof.
  apply unknown_feature_filter_ignored.
  unfold features. intros Hin. apply list_elem_of_In in Hin.
  simpl in Hin. intuition discriminate.
Defined.

Lemma question_mark_rows_dropped_witness :
  (∀ i fields f,
     records ";" Demo.dataset !! i = Some fields →
     f ∈ features →
     record_dict (header ";" Demo.dataset) fields !! f = Some "?" →
     i ∉ (rows Demo.loaded).*1)
  ∧ (∀ ir f,
       ir ∈ rows Demo.loaded → f ∈ features → f ∈ columns Demo.loaded →
       ∃ x, at_col f ir.2 = Num x).
Proof.
  apply (question_mark_rows_dropped (files Demo.trained) None Demo.loaded
           Demo.dataset ";"%char ["?"]).
  - apply Ok_from_Ok. vm_compute. reflexivity.
  - vm_compute. reflexivity.
  - left. apply list_elem_of_singleton. reflexivity.
Defined.

(** The record with the "?" fields, of label 2, is the one that is gone. *)
Example loaded_labels : (rows Demo.loaded).*1 = [0; 1; 3; 4]%nat.
Proof. vm_compute. reflexivity. Qed.


Example loaded_timestamps :
  (λ ir, match at_col "Datetime" ir.2 with Stamp t => t | _ => 0 end)
    <$> rows Demo.loaded
  = [1166289840; 1166289900; 1177719720; 1177719780].
Proof. vm_compute. reflexivity. Qed.

Lemma start_date_after_all_records_witness :
  (get_anomalies Demo.trained (Some "2008-01-01") None None).1
  = Ok empty_response.
Proof.
  destruct (start_date_after_all_records Demo.trained "2008-01-01" None None
              {| seconds := 1199145600; tz_aware := false |} Demo.loaded)
    as (_ & Hok & _).
  - apply load_default_dataset_request, Ok_from_Ok. vm_compute. reflexivity.
  - discriminate.
  - vm_compute. reflexivity.
  - apply all_before_spec. vm_compute. reflexivity.
  - apply Hok.
    + reflexivity.
    + vm_compute. eauto.
    + vm_compute. eauto.
    + discriminate.
Defined.

(** A valid [start_date] later than every record is not always answered
    with the empty response: 2030-01-01T00:00:00Z parses, to a tz-aware
    time after the four timestamps of the loaded dataset, and the answer
    is a 400. *)
Lemma tz_aware_start_date_answered_400 :
  parse_datetime "2030-01-01T00:00:00Z"
  = Some {| seconds := 1893456000; tz_aware := true |}
  ∧ forallb (λ ir, match at_col "Datetime" ir.2 with
                   | Stamp t => t <? 1893456000
                   | _ => false
                   end) (rows Demo.loaded) = true
  ∧ ∃ detail,
      (get_anomalies Demo.trained (Some "2030-01-01T00:00:00Z") None None).1
      = Raise (HTTPException 400
                 ("Invalid start_date format: " +:+ detail)).
Proof.
  split; [vm_compute; reflexivity |]. split; [vm_compute; reflexivity |].
  exists "Invalid comparison between dtype=datetime64[ns] and Timestamp".
  reflexivity.
Qed.

Lemma training_scaler_choice_witness :
  scaler (train_model Demo.trained None).2 = Some Demo.fitted_scaler
  ∧ trains_with Demo.trained None Demo.fitted_scaler
      (from_Ok [] (estimator_call "StandardScaler" Demo.fitted_scaler
                     (λ s, transform s Demo.training_X))).
Proof.
  destruct (training_scaler_choice Demo.trained None Demo.training_X)
    as [Hreuse _].
  - apply Ok_from_Ok. vm_compute. reflexivity.
  - apply (Hreuse Demo.fitted_scaler
             (from_Ok [] (estimator_call "StandardScaler" Demo.fitted_scaler
                            (λ s, transform s Demo.training_X)))).
    + vm_compute. reflexivity.
    + apply Ok_from_Ok. vm_compute. reflexivity.
Defined.

(** A scaler file that exists is not always reused: when it holds a
    scaler fitted on three features, or bytes that do not deserialize, the
    training succeeds with a standardizer fit on the new data. *)
Lemma existing_scaler_file_refit :
  (DEFAULT_SCALER_FILE (files Demo.mismatched)
   = Some (Pickled Demo.narrow_scaler)
   ∧ (train_model Demo.mismatched None).1
     = Ok "Model trained and saved successfully"
   ∧ scaler (train_model Demo.mismatched None).2 ≠ Some Demo.narrow_scaler
   ∧ ∃ s', StandardScaler_fit Demo.training_X = Ok s'
           ∧ scaler (train_model Demo.mismatched None).2 = Some (Fitted s'))
  ∧ (os_path_exists (DEFAULT_SCALER_FILE (files Demo.corrupted)) = true
     ∧ (train_model Demo.corrupted None).1
       = Ok "Model trained and saved successfully"
     ∧ ∃ s', StandardScaler_fit Demo.training_X = Ok s'
             ∧ scaler (train_model Demo.corrupted None).2 = Some (Fitted s')).
Proof.
  split.
  - split; [reflexivity |]. split; [vm_compute; reflexivity |]. split.
    + intros Heq. vm_compute in Heq. discriminate.
    + eexists. split; vm_compute; reflexivity.
  - split; [reflexivity |]. split; [vm_compute; reflexivity |].
    eexists. split; vm_compute; reflexivity.
Qed.

End OnDemo.

(** ** Instances of the further properties *)

Section MoreOnDemo.
Local Existing Instance Demo.demo.

Lemma is_Some_load_default_dataset `{Library} fs :
  is_Ok (load_request fs None) = true → is_Some (load_default_dataset fs).
Proof.
  unfold load_request. destruct (load_default_dataset fs); [eauto | discriminate].
Qed.

Lemma train_then_load_witness :
  load_model (files Demo.trained) = (model Demo.trained, scaler Demo.trained)
  ∧ startup (files Demo.trained) = Demo.trained
  ∧ (∃ m, model Demo.trained = Some (Fitted m))
  ∧ MODEL_PATH_model (files Demo.trained)
    = DEFAULT_MODEL_FILE (files Demo.trained)
  ∧ MODEL_PATH_scaler (files Demo.trained)
    = DEFAULT_SCALER_FILE (files Demo.trained)
  ∧ DEFAULT_DATA_FILE (files Demo.trained)
    = DEFAULT_DATA_FILE (files Demo.untrained).
Proof.
  apply (train_then_load Demo.untrained None
           "Model trained and saved successfully").
  vm_compute. reflexivity.
Defined.

Lemma failed_training_writes_nothing_witness :
  files (train_model Demo.trained (Some Demo.json_upload)).2
  = files Demo.trained.
Proof.
  apply (failed_training_writes_nothing Demo.trained (Some Demo.json_upload)
           (HTTPException 500
              "Error training model: 400: Unsupported file format. Please upload a .csv or .txt file")).
  vm_compute. reflexivity.
Defined.

Lemma failed_fit_breaks_predict_witness :
  scaler (train_model Demo.emptied None).2 = Some Unfitted
  ∧ ∀ file', ∃ d,
      predict_anomalies (train_model Demo.emptied None).2 file'
      = Raise (HTTPException 500 d).
Proof.
  destruct (failed_fit_breaks_predict Demo.emptied None []
              (Exception "ValueError"
                 "Found array with 0 sample(s) while a minimum of 1 is required"))
    as (Hscaler & _ & _ & Hpredict).
  - vm_compute. reflexivity.
  - vm_compute. reflexivity.
  - left. reflexivity.
  - split; [exact Hscaler | exact Hpredict].
Defined.

Lemma later_training_keeps_scaler_witness :
  scaler (train_model (train_model Demo.untrained None).2
            (Some Demo.later_upload)).2
  = scaler (train_model Demo.untrained None).2.
Proof.
  pose (X' := from_Ok [] (training_matrix
                            (files (train_model Demo.untrained None).2)
                            (Some Demo.later_upload))).
  pose (s := default Unfitted (scaler (train_model Demo.untrained None).2)).
  apply (later_training_keeps_scaler Demo.untrained None
           "Model trained and saved successfully"
           (Some Demo.later_upload) X').
  - vm_compute. reflexivity.
  - apply Ok_from_Ok. vm_compute. reflexivity.
  - exists s.
    exists (from_Ok [] (estimator_call "StandardScaler" s
                          (λ s, transform s X'))).
    split; [vm_compute; reflexivity |].
    apply Ok_from_Ok. vm_compute. reflexivity.
Defined.

Lemma default_dataset_as_upload_witness :
  predict_anomalies Demo.trained None
  = predict_anomalies Demo.trained
      (Some {| filename := "household_power_consumption.txt";
               contents := Some Demo.dataset |})
  ∧ train_model Demo.trained None
    = train_model Demo.trained
        (Some {| filename := "household_power_consumption.txt";
                 contents := Some Demo.dataset |}).
Proof.
  apply default_dataset_as_upload.
  - vm_compute. reflexivity.
  - vm_compute. reflexivity.
  - vm_compute. reflexivity.
  - apply is_Some_load_default_dataset. vm_compute. reflexivity.
Defined.

Lemma predict_agrees_with_analyze_witness :
  (analyze_default_dataset Demo.trained None).1 = Ok Demo.predicted.
Proof.
  destruct (predict_agrees_with_analyze Demo.trained
              Demo.fitted_model Demo.fitted_scaler Demo.predicted)
    as [Hanalyze _].
  - vm_compute. reflexivity.
  - vm_compute. reflexivity.
  - apply Hanalyze.
    refine (Ok_from_Ok empty_response (predict_anomalies Demo.trained None) _).
    vm_compute. reflexivity.
Defined.

Lemma predict_agrees_with_anomalies_witness :
  (get_anomalies Demo.trained None None None).1 = Ok Demo.predicted.
Proof.
  apply predict_agrees_with_anomalies.
  - apply Ok_from_Ok. vm_compute. reflexivity.
  - apply Z.eqb_neq. vm_compute. reflexivity.
  - apply Z.leb_le. vm_compute. reflexivity.
Defined.

Lemma sample_size_out_of_range_witness :
  analyze_default_dataset Demo.trained (Some 5)
  = analyze_default_dataset Demo.trained None.
Proof.
  apply sample_size_out_of_range. right. exists Demo.loaded. split.
  - apply load_default_dataset_request, Ok_from_Ok. vm_compute. reflexivity.
  - apply Z.leb_le. vm_compute. reflexivity.
Defined.

Lemma default_dataset_not_found_witness :
  (get_anomalies Demo.datasetless None None None).1
  = Raise (HTTPException 404 "Default dataset not found")
  ∧ (analyze_default_dataset Demo.datasetless None).1
    = Raise (HTTPException 500
        "Error analyzing default dataset: 404: Default dataset not found").
Proof.
  destruct (default_dataset_not_found Demo.datasetless
              Demo.fitted_model Demo.fitted_scaler)
    as (Hget & Hanalyze & _).
  - vm_compute. reflexivity.
  - vm_compute. reflexivity.
  - reflexivity.
  - split; [apply Hget | apply Hanalyze].
Defined.

Lemma invalid_dates_answered_400_witness :
  (get_anomalies Demo.trained (Some "yesterday") None None).1
  = Raise (HTTPException 400
      "Invalid start_date format: Invalid start_date format: yesterday").
Proof.
  destruct (invalid_dates_answered_400 Demo.trained
              Demo.fitted_model Demo.fitted_scaler Demo.loaded "yesterday")
    as [Hstart _].
  - vm_compute. reflexivity.
  - vm_compute. reflexivity.
  - apply load_default_dataset_request, Ok_from_Ok. vm_compute. reflexivity.
  - apply (bool_decide_unpack _). vm_compute. exact I.
  - discriminate.
  - vm_compute. reflexivity.
  - apply Hstart.
Defined.

Lemma get_routes_load_the_models_witness :
  (get_anomalies Demo.cold None None None).2
  = {| model := Some Demo.fitted_model; scaler := Some Demo.fitted_scaler;
       files := files Demo.cold |}.
Proof.
  destruct (get_routes_load_the_models Demo.cold
              Demo.fitted_model Demo.fitted_scaler) as [Hget _].
  - left. reflexivity.
  - vm_compute. reflexivity.
  - apply Hget.
Defined.



Lemma loaded_rows_in_file_order_witness :
  (rows Demo.loaded).*1 `sublist_of` seq 0 (length (records ";" Demo.dataset))
  ∧ NoDup (rows Demo.loaded).*1
  ∧ len Demo.loaded ≤ Z.of_nat (length (records ";" Demo.dataset))
  ∧ ∀ (ir : nat * gmap string cell) c,
      ir ∈ rows Demo.loaded → c ∈ columns Demo.loaded → at_col c ir.2 ≠ NaN.
Proof.
  apply (loaded_rows_in_file_order (files Demo.trained) None Demo.loaded
           Demo.dataset ";"%char ["?"]).
  - apply Ok_from_Ok. vm_compute. reflexivity.
  - vm_compute. reflexivity.
Defined.

Lemma anomaly_count_bounds_witness :
  0 ≤ anomaly_count Demo.predicted ≤ total_records Demo.predicted.
Proof.
  apply (anomaly_count_bounds Demo.trained (POST_predict None)).
  change (predict_anomalies Demo.trained None
          = Ok (from_Ok empty_response
                  (predict_anomalies Demo.trained None))).
  apply Ok_from_Ok. vm_compute. reflexivity.
Defined.

Lemma feature_filter_keeps_statistics_witness :
  anomaly_count Demo.sorted_answer = anomaly_count Demo.plain_answer
  ∧ total_records Demo.sorted_answer = total_records Demo.plain_answer
  ∧ anomaly_percentage Demo.sorted_answer
    = anomaly_percentage Demo.plain_answer.
Proof.
  apply (feature_filter_keeps_statistics Demo.trained None None
           (Some "Voltage")).
  - apply Ok_from_Ok. vm_compute. reflexivity.
  - apply Ok_from_Ok. vm_compute. reflexivity.
Defined.

Lemma demo_ltb_asymmetric (x y : Q) :
  negb (Qle_bool y x) = true → negb (Qle_bool x y) = false.
Proof.
  intros Hlt%negb_true_iff. apply negb_false_iff, Qle_bool_iff.
  apply Qlt_le_weak, Qnot_le_lt. intros Hle%Qle_bool_iff. congruence.
Qed.

Lemma feature_filter_sorts_witness :
  Sorted (descending "Voltage") (rows Demo.sorted_frame).
Proof.
  apply (feature_filter_sorts Demo.fitted_model Demo.fitted_scaler
           (files Demo.trained) None None).
  - apply demo_ltb_asymmetric.
  - apply (bool_decide_unpack _). vm_compute. exact I.
  - apply Ok_Some_from_Ok. vm_compute. reflexivity.
Defined.

(** The readings of the default dataset by falling voltage: 235.68,
    234.84, 233.63 and 233.29. *)
Example sorted_labels : (rows Demo.sorted_frame).*1 = [3; 0; 1; 4]%nat.
Proof. vm_compute. reflexivity. Qed.

Lemma missing_features_named_witness :
  predict_anomalies Demo.trained (Some Demo.no_voltage_upload)
  = Raise (HTTPException 500
      ("Error processing file: 400: Missing required features: "
       +:+ repr_list (missing_features Demo.no_voltage))).
Proof.
  destruct (missing_features_named Demo.trained
              Demo.fitted_model Demo.fitted_scaler
              (Some Demo.no_voltage_upload) Demo.no_voltage) as [Hpredict _].
  - vm_compute. reflexivity.
  - vm_compute. reflexivity.
  - apply Ok_from_Ok. vm_compute. reflexivity.
  - intros Hnone. apply (f_equal length) in Hnone.
    vm_compute in Hnone. discriminate.
  - apply Hpredict.
Defined.

Example no_voltage_named :
  repr_list (missing_features Demo.no_voltage) = "['Voltage']".
Proof. vm_compute. reflexivity. Qed.

Lemma flagged_iff_minus_one_witness :
  ∃ X X_scaled predictions,
    feature_matrix Demo.loaded = Ok X
    ∧ estimator_call "StandardScaler" Demo.fitted_scaler
        (λ s, transform s X) = Ok X_scaled
    ∧ estimator_call "IsolationForest" Demo.fitted_model
        (λ m, predict m X_scaled) = Ok predictions
    ∧ (λ ir : nat * gmap string cell, is_anomaly ir.2) <$> rows Demo.scored
      = (λ z, bool_decide (z = -1)) <$> predictions.
Proof.
  apply flagged_iff_minus_one.
  apply Ok_from_Ok. vm_compute. reflexivity.
Defined.

Example scored_flags :
  (λ ir : nat * gmap string cell, is_anomaly ir.2) <$> rows Demo.scored
  = [false; false; false; true].
Proof. vm_compute. reflexivity. Qed.

Lemma predict_errors_are_500_witness :
  ∃ d, HTTPException 500
         "Error processing file: 400: Unsupported file format. Please upload a .csv or .txt file"
       = HTTPException 500 d.
Proof.
  apply (predict_errors_are_500 Demo.trained (Some Demo.json_upload)).
  reflexivity.
Defined.

Lemma train_errors_are_500_witness :
  ∃ d, HTTPException 500
         "Error training model: 400: Unsupported file format. Please upload a .csv or .txt file"
       = HTTPException 500 d.
Proof.
  apply (train_errors_are_500 Demo.trained (Some Demo.json_upload)).
  reflexivity.
Defined.

Lemma predict_after_startup_witness :
  predict_anomalies (startup Demo.no_files) None
  = Raise (HTTPException 500
             "Model not trained yet. Please upload a training dataset first.").
Proof. apply predict_after_startup; reflexivity. Defined.

Lemma predict_reports_flagged_scores_witness :
  ∃ df X X_scaled predictions anomaly_scores,
    load_request (files Demo.trained) None = Ok df
    ∧ feature_matrix df = Ok X
    ∧ estimator_call "StandardScaler" Demo.fitted_scaler
        (λ s, transform s X) = Ok X_scaled
    ∧ estimator_call "IsolationForest" Demo.fitted_model
        (λ m, predict m X_scaled) = Ok predictions
    ∧ estimator_call "IsolationForest" Demo.fitted_model
        (λ m, decision_function m X_scaled) = Ok anomaly_scores
    ∧ total_records Demo.predicted = len df
    ∧ anomaly_count Demo.predicted
      = Z.of_nat (length (filter (λ z, z = -1) predictions))
    ∧ anomaly_score <$> anomalies Demo.predicted
      = (filter (λ zs : Z * Q, zs.1 = -1)
           (zip predictions anomaly_scores)).*2.
Proof.
  apply (predict_reports_flagged_scores Demo.trained
           Demo.fitted_model Demo.fitted_scaler None Demo.predicted).
  - vm_compute. reflexivity.
  - vm_compute. reflexivity.
  - apply Ok_from_Ok. vm_compute. reflexivity.
Defined.

Lemma unreadable_default_dataset_witness :
  load_default_dataset (files Demo.blank) = None
  ∧ predict_anomalies Demo.blank None
    = Raise (HTTPException 500
        "Error processing file: 400: No file provided and default dataset not found")
  ∧ predict_anomalies Demo.blank
      (Some {| filename := "household_power_consumption.txt";
               contents := Some "" |})
    = Raise (HTTPException 500
        "Error processing file: No columns to parse from file").
Proof.
  apply (unreadable_default_dataset Demo.blank
           Demo.fitted_model Demo.fitted_scaler
           "household_power_consumption.txt" ""
           (Exception "EmptyDataError" "No columns to parse from file")).
  - vm_compute. reflexivity.
  - vm_compute. reflexivity.
  - reflexivity.
  - reflexivity.
  - vm_compute. reflexivity.
  - vm_compute. reflexivity.
Defined.

End MoreOnDemo.
